(** * easyDataverse: serialization engine, required-field validator and
      file-entry model, embedded from [easyDataverse/base.py] and
      [easyDataverse/core/dataset.py].

    Python values are embedded as a single inductive universe [value];
    dictionaries are insertion-ordered association lists; exceptions are an
    explicit [result]; [print] is an explicit output log. *)

From Stdlib Require Import List String Ascii Bool Arith Lia ZArith.
From Stdlib Require Import Numbers.DecimalString.
Import ListNotations.
Open Scope list_scope.
Open Scope string_scope.

(* ================================================================== *)
(** ** Python [str] operations used by the sources (ASCII fragment)    *)
(* ================================================================== *)

Module PyStr.

Definition is_upper (c : ascii) : bool :=
  let n := nat_of_ascii c in ((65 <=? n) && (n <=? 90))%nat.

Definition is_lower (c : ascii) : bool :=
  let n := nat_of_ascii c in ((97 <=? n) && (n <=? 122))%nat.

Definition is_digit (c : ascii) : bool :=
  let n := nat_of_ascii c in ((48 <=? n) && (n <=? 57))%nat.

Definition upper_char (c : ascii) : ascii :=
  if is_lower c then ascii_of_nat (nat_of_ascii c - 32) else c.

Definition lower_char (c : ascii) : ascii :=
  if is_upper c then ascii_of_nat (nat_of_ascii c + 32) else c.

Fixpoint map_chars (f : ascii -> ascii) (s : string) : string :=
  match s with
  | EmptyString => EmptyString
  | String c r => String (f c) (map_chars f r)
  end.

(** [s.capitalize()]: first character upper-cased, the rest lower-cased. *)
Definition capitalize (s : string) : string :=
  match s with
  | EmptyString => EmptyString
  | String c r => String (upper_char c) (map_chars lower_char r)
  end.

(** [s.isdigit()]: non-empty and made of digits only. *)
Fixpoint all_digits (s : string) : bool :=
  match s with
  | EmptyString => true
  | String c r => is_digit c && all_digits r
  end.

Definition isdigit (s : string) : bool :=
  match s with
  | EmptyString => false
  | _ => all_digits s
  end.

(** [s.startswith(p)]. *)
Definition startswith (s p : string) : bool := String.prefix p s.

(** [p in s] on strings: [p] occurs as a contiguous substring of [s]. *)
Fixpoint contains (p s : string) : bool :=
  String.prefix p s ||
  match s with
  | EmptyString => false
  | String _ r => contains p r
  end.

(** [s.split(sep)] for a one-character separator. *)
Fixpoint split (sep : ascii) (s : string) : list string :=
  match s with
  | EmptyString => [EmptyString]
  | String c r =>
      if Ascii.eqb c sep then EmptyString :: split sep r
      else match split sep r with
           | [] => [String c EmptyString]
           | w :: ws => String c w :: ws
           end
  end.

(** [sep.join(l)]. *)
Fixpoint join (sep : string) (l : list string) : string :=
  match l with
  | [] => EmptyString
  | [x] => x
  | x :: r => x ++ sep ++ join sep r
  end.

Fixpoint drop (n : nat) (s : string) : string :=
  match n, s with
  | O, _ => s
  | S k, EmptyString => EmptyString
  | S k, String _ r => drop k r
  end.

(** [s.replace(old, new)] for non-empty [old]: leftmost, non-overlapping
    occurrences are replaced.  [skip] counts the characters of an occurrence
    still to be consumed. *)
Fixpoint replace_from (old new : string) (skip : nat) (s : string) : string :=
  match s with
  | EmptyString => EmptyString
  | String c r =>
      match skip with
      | S k => replace_from old new k r
      | O =>
          if String.prefix old s
          then new ++ replace_from old new (String.length old - 1) r
          else String c (replace_from old new 0 r)
      end
  end.

Definition replace (old new s : string) : string :=
  replace_from old new 0 s.

(** The piece after the last occurrence of a non-empty [sep], that is
    [s.split(sep)[-1]]; [cur] is the piece being accumulated, reversed. *)
Fixpoint last_piece_from (sep : string) (skip : nat) (cur : string)
         (s : string) : string :=
  match s with
  | EmptyString => cur
  | String c r =>
      match skip with
      | S k => last_piece_from sep k cur r
      | O =>
          if String.prefix sep s
          then last_piece_from sep (String.length sep - 1) EmptyString r
          else last_piece_from sep 0 (cur ++ String c EmptyString) r
      end
  end.

Definition split_last (sep s : string) : string :=
  last_piece_from sep 0 EmptyString s.

(** The character [c] occurs in [s]. *)
Fixpoint has_char (c : ascii) (s : string) : bool :=
  match s with
  | EmptyString => false
  | String x r => Ascii.eqb x c || has_char c r
  end.

End PyStr.

(* ================================================================== *)
(** ** Snake case to camel case                                        *)
(* ================================================================== *)

(** [x.capitalize() or "_"]: Python's [or] returns the right operand when
    the left one is falsy, and the empty string is the only falsy string. *)
Definition capitalize_or_underscore (x : string) : string :=
  match PyStr.capitalize x with
  | EmptyString => "_"
  | y => y
  end.

(** [DataverseBase._snake_to_camel] and [Dataset._snake_to_camel] (the two
    static methods have the same body):
    ["".join(x.capitalize() or "_" for x in word.split("_"))]. *)
Definition _snake_to_camel (word : string) : string :=
  PyStr.join "" (map capitalize_or_underscore (PyStr.split "_" word)).


(* ================================================================== *)
(** ** Python values, dictionaries and exceptions                      *)
(* ================================================================== *)

(** The exceptions raised by the embedded code. *)
Inductive exn : Type :=
| ValueError (msg : string)
| AssertionError (msg : string)
| FileExistsError (msg : string)
| FileNotFoundError (msg : string)
| AttributeError (msg : string)
| TypeError (msg : string).

Inductive result (A : Type) : Type :=
| Ok (a : A)
| Raise (e : exn).

Arguments Ok {A} a.
Arguments Raise {A} e.

Definition bind {A B : Type} (m : result A) (k : A -> result B) : result B :=
  match m with
  | Ok a => k a
  | Raise e => Raise e
  end.

Notation "x <- m ;; k" := (bind m (fun x => k))
  (at level 61, m at next level, right associativity).

(** The descriptor a field carries in [json_schema_extra]. *)
Record Properties : Type := {
  typeName : string;
  typeClass : string;
  multiple : bool
}.

(** What the sources read from a pydantic [FieldInfo]. *)
Record FieldInfo : Type := {
  alias : option string;
  json_schema_extra : option Properties
}.

(** A pydantic model instance: its class name, the [_metadatablock_name]
    attribute when the instance has one, and [model_fields] in declaration
    order, each attribute paired with the value [getattr(self, attr)]. *)
Record BaseModel (V : Type) : Type := {
  class_name : string;
  _metadatablock_name : option string;
  model_fields : list (string * FieldInfo * V)
}.

Arguments class_name {V} _.
Arguments _metadatablock_name {V} _.
Arguments model_fields {V} _.

(** Python values.  A [dict] is an association list in insertion order with
    string keys.  [VEnum name v] is an [Enum] member with [str()] rendering
    [name] and underlying [.value] [v]; [VDate] is a [date]/[datetime]. *)
#[local] Unset Elimination Schemes.
Inductive value : Type :=
| VNone
| VBool (b : bool)
| VInt (z : Z)
| VStr (s : string)
| VDate (year month day : nat)
| VEnum (name : string) (val : value)
| VList (l : list value)
| VDict (d : list (string * value))
| VModel (m : BaseModel value).
#[local] Set Elimination Schemes.

Definition pydict : Type := list (string * value).
Definition DataverseBase : Type := BaseModel value.

(** [d[k] = v] / [d.update({k: v})]: an existing key keeps its position. *)
Fixpoint dict_set (k : string) (v : value) (d : pydict) : pydict :=
  match d with
  | [] => [(k, v)]
  | (k', v') :: r =>
      if String.eqb k' k then (k, v) :: r else (k', v') :: dict_set k v r
  end.

Fixpoint dict_get (k : string) (d : pydict) : option value :=
  match d with
  | [] => None
  | (k', v) :: r => if String.eqb k' k then Some v else dict_get k r
  end.

Definition dict_keys (d : pydict) : list string := map fst d.
Definition dict_values (d : pydict) : list value := map snd d.

(** [v == {}] and [v == []]. *)
Definition eq_empty_dict (v : value) : bool :=
  match v with VDict [] => true | _ => false end.

Definition eq_empty_list (v : value) : bool :=
  match v with VList [] => true | _ => false end.

Definition is_none (v : value) : bool :=
  match v with VNone => true | _ => false end.

(* ================================================================== *)
(** ** pydantic's [model_dump(exclude_none=..., by_alias=True)]         *)
(* ================================================================== *)

Definition key_by_alias (attr : string) (field : FieldInfo) : string :=
  match alias field with
  | Some a => a
  | None => attr
  end.

Section ModelDump.
Variable exclude_none : bool.
Variable dump : value -> value.

Fixpoint dump_fields (fs : list (string * FieldInfo * value))
         (out : pydict) : pydict :=
  match fs with
  | [] => out
  | (attr, field, v) :: rest =>
      if exclude_none && is_none v then dump_fields rest out
      else dump_fields rest (dict_set (key_by_alias attr field) (dump v) out)
  end.

Definition dump_items (d : pydict) : pydict :=
  map (fun kv => (fst kv, dump (snd kv))) d.
End ModelDump.

(** Nested models become dicts, lists and plain dicts are dumped element
    by element, every other value is kept. *)
Fixpoint model_dump (exclude_none : bool) (v : value) : value :=
  match v with
  | VModel m =>
      VDict (dump_fields exclude_none (model_dump exclude_none)
                         (model_fields m) [])
  | VList l => VList (map (model_dump exclude_none) l)
  | VDict d => VDict (dump_items (model_dump exclude_none) d)
  | _ => v
  end.

(* ================================================================== *)
(** ** [easyDataverse/base.py]: class [DataverseBase]                  *)
(* ================================================================== *)

(** [DataverseBase.dict]: pydantic's dump by alias, then the
    top-level comprehension
    [{key: value for ... if value != {} and value != []}].
    Of the keyword arguments only [exclude_none] is used by the sources. *)
Definition dict_ (exclude_none : bool) (self : DataverseBase) : pydict :=
  let fields :=
    dump_fields exclude_none (model_dump exclude_none) (model_fields self) []
  in
  filter (fun kv => negb (eq_empty_dict (snd kv))
                    && negb (eq_empty_list (snd kv))) fields.

(** [DataverseBase.is_empty(value)]. *)
Definition is_empty (v : value) : bool :=
  match v with
  | VNone => true
  | VList [] => true
  | VModel m =>
      (* hasattr(value, "model_fields") and value.dict(exclude_none=True) == {} *)
      match dict_ true m with
      | [] => true
      | _ :: _ => false
      end
  | _ => false
  end.

(** [any(name in attr for name in ["add_", "_metadatablock_name"])]. *)
Definition is_helper_name (attr : string) : bool :=
  existsb (fun name => PyStr.contains name attr)
          ["add_"; "_metadatablock_name"].

Definition is_enum (v : value) : bool :=
  match v with VEnum _ _ => true | _ => false end.

Definition enum_value (v : value) : value :=
  match v with VEnum _ x => x | _ => v end.

Definition str_of_nat (n : nat) : string :=
  NilZero.string_of_uint (Nat.to_uint n).

Definition str_of_Z (z : Z) : string :=
  NilZero.string_of_int (Z.to_int z).

(** Zero padding on the left up to [width] characters. *)
Fixpoint zeros (n : nat) (s : string) : string :=
  match n with
  | O => s
  | S k => String "0" (zeros k s)
  end.

Definition zfill (width : nat) (s : string) : string :=
  zeros (width - String.length s) s.

(** [value.strftime("%Y-%m-%d")], the year written with four digits (for
    years below 1000 the padding is left to the C library by Python). *)
Definition strftime_Ymd (year month day : nat) : string :=
  zfill 4 (str_of_nat year) ++ "-" ++ zfill 2 (str_of_nat month)
        ++ "-" ++ zfill 2 (str_of_nat day).

(** The mapping stored under a wire name by [json_obj.update]. *)
Definition field_mapping (properties : Properties) (v : value) : value :=
  VDict [("multiple", VBool (multiple properties));
         ("typeClass", VStr (typeClass properties));
         ("typeName", VStr (typeName properties));
         ("value", v)].

Section DataverseDict.
(** [str(m)] of a model instance is pydantic's [BaseModel.__str__]; it is
    a parameter of the embedding. *)
Variable model_str : DataverseBase -> string.
(** The recursive call [x.dataverse_dict()]. *)
Variable dataverse_dict_of : value -> result value.

Fixpoint each_dataverse_dict (l : list value) : result (list value) :=
  match l with
  | [] => Ok []
  | x :: r =>
      x' <- dataverse_dict_of x ;;
      r' <- each_dataverse_dict r ;;
      Ok (x' :: r')
  end.

(** Lines 128-132: the compound branch. *)
Definition process_compound (v : value) : result value :=
  match v with
  | VList l => l' <- each_dataverse_dict l ;; Ok (VList l')
  | _ => dataverse_dict_of v
  end.

(** Lines 134-143: normalisation by runtime type. *)
Definition normalize (v : value) : value :=
  match v with
  | VList l => if forallb is_enum l then VList (map enum_value l) else v
  | VDict _ => v
  | VDate y m d => VStr (strftime_Ymd y m d)
  (* str(value) for everything else *)
  | VNone => VStr "None"
  | VBool b => VStr (if b then "True" else "False")
  | VInt z => VStr (str_of_Z z)
  | VStr s => VStr s
  | VEnum name _ => VStr name
  | VModel m => VStr (model_str m)
  end.

(** One iteration of the loop of [dataverse_dict]: [Ok None] is a
    [continue], [Ok (Some (k, e))] is the pair handed to
    [json_obj.update]. *)
Definition field_step (f : string * FieldInfo * value)
  : result (option (string * value)) :=
  let '(attr, field, v) := f in
  if is_helper_name attr then Ok None
  else
    let properties := json_schema_extra field in
    if is_empty v then Ok None
    else
      match properties with
      | None => Raise (TypeError "'NoneType' object is not subscriptable")
      | Some properties =>
          v1 <- (if String.eqb (typeClass properties) "compound"
                 then process_compound v else Ok v) ;;
          Ok (Some (typeName properties,
                    field_mapping properties (normalize v1)))
      end.

Fixpoint fields_loop (fs : list (string * FieldInfo * value))
         (json_obj : pydict) : result pydict :=
  match fs with
  | [] => Ok json_obj
  | f :: rest =>
      step <- field_step f ;;
      match step with
      | None => fields_loop rest json_obj
      | Some (k, e) => fields_loop rest (dict_set k e json_obj)
      end
  end.
End DataverseDict.

(** Lines 156-163: the block wrapper. *)
Definition wrap_block (block : option string) (json_obj : pydict) : value :=
  match block, dict_values json_obj with
  | Some name, _ :: _ =>
      VDict [(name, VDict [("fields", VList (dict_values json_obj))])]
  | _, _ => VDict json_obj
  end.

Section DataverseDictFix.
Variable model_str : DataverseBase -> string.

(** [x.dataverse_dict()] for an arbitrary value [x]: only model instances
    have the method. *)
Fixpoint dataverse_dict_of (x : value) : result value :=
  match x with
  | VModel m =>
      json_obj <- fields_loop model_str dataverse_dict_of (model_fields m) [] ;;
      Ok (wrap_block (_metadatablock_name m) json_obj)
  | _ => Raise (AttributeError "object has no attribute 'dataverse_dict'")
  end.

(** [DataverseBase.dataverse_dict]. *)
Definition dataverse_dict (self : DataverseBase) : result value :=
  dataverse_dict_of (VModel self).

(** The [json_obj] built by the loop of [dataverse_dict]. *)
Definition json_obj_of (self : DataverseBase) : result pydict :=
  fields_loop model_str dataverse_dict_of (model_fields self) [].
End DataverseDictFix.


(* ================================================================== *)
(** ** [os.path] (posixpath) functions used by [dataset.py]            *)
(* ================================================================== *)

Module OsPath.
Definition sep : string := "/".

Fixpoint all_slashes (s : string) : bool :=
  match s with
  | EmptyString => true
  | String c r => Ascii.eqb c "/" && all_slashes r
  end.

(** [s.rstrip("/")]. *)
Fixpoint rstrip_sep (s : string) : string :=
  match s with
  | EmptyString => EmptyString
  | String c r => if all_slashes s then EmptyString else String c (rstrip_sep r)
  end.

Fixpoint endswith_sep (s : string) : bool :=
  match s with
  | EmptyString => false
  | String c EmptyString => Ascii.eqb c "/"
  | String _ r => endswith_sep r
  end.

(** [p[:p.rfind("/") + 1]] and [p[p.rfind("/") + 1:]]. *)
Definition head_of (p : string) : string :=
  match rev (PyStr.split "/" p) with
  | [] | [_] => EmptyString
  | _ :: front => PyStr.join "/" (rev front) ++ "/"
  end.

Definition basename (p : string) : string :=
  last (PyStr.split "/" p) EmptyString.

Definition dirname (p : string) : string :=
  let head := head_of p in
  if negb (String.eqb head EmptyString) && negb (all_slashes head)
  then rstrip_sep head else head.

(** One step of the loop of [posixpath.join]. *)
Definition join2 (path b : string) : string :=
  if PyStr.startswith b sep then b
  else if String.eqb path EmptyString || endswith_sep path then path ++ b
  else path ++ sep ++ b.

Definition join (a : string) (p : list string) : string :=
  fold_left join2 p a.

(** One step of the component loop of [posixpath.normpath];
    [new_comps] is kept in reverse order. *)
Definition norm_step (initial_slashes : nat) (new_comps : list string)
           (comp : string) : list string :=
  if String.eqb comp EmptyString || String.eqb comp "." then new_comps
  else if negb (String.eqb comp "..")
          || (Nat.eqb initial_slashes 0
              && match new_comps with [] => true | _ => false end)
          || match new_comps with
             | top :: _ => String.eqb top ".."
             | [] => false
             end
  then comp :: new_comps
  else match new_comps with
       | _ :: below => below
       | [] => new_comps
       end.

Fixpoint repeat_sep (n : nat) : string :=
  match n with
  | O => EmptyString
  | S k => sep ++ repeat_sep k
  end.

Definition normpath (path : string) : string :=
  if String.eqb path EmptyString then "."
  else
    let initial_slashes :=
      if PyStr.startswith path sep
      then if PyStr.startswith path "//" && negb (PyStr.startswith path "///")
           then 2 else 1
      else 0 in
    let comps := PyStr.split "/" path in
    let new_comps := fold_left (norm_step initial_slashes) comps [] in
    let path := PyStr.join sep (rev new_comps) in
    let path := repeat_sep initial_slashes ++ path in
    if String.eqb path EmptyString then "." else path.
End OsPath.

(* ================================================================== *)
(** ** The [nob] tree view used by the validator                       *)
(* ================================================================== *)

(** [nob.Nob(data).paths] lists the root and then, depth first, every key
    of every dict and every index of every list; [nob[path].val] is the
    raw value stored at a path.  The enumeration below pairs each path
    with that value. *)
Section Nob.
Variable walk : list string -> value -> list (list string * value).

Fixpoint nob_items (root : list string) (d : pydict)
  : list (list string * value) :=
  match d with
  | [] => []
  | (k, v) :: r =>
      ((root ++ [k])%list, v) :: (walk (root ++ [k])%list v
                                    ++ nob_items root r)%list
  end.

Fixpoint nob_elems (root : list string) (idx : nat) (l : list value)
  : list (list string * value) :=
  match l with
  | [] => []
  | v :: r =>
      ((root ++ [str_of_nat idx])%list, v)
        :: (walk (root ++ [str_of_nat idx])%list v
              ++ nob_elems root (S idx) r)%list
  end.
End Nob.

Fixpoint nob_walk (root : list string) (v : value)
  : list (list string * value) :=
  match v with
  | VDict d => nob_items nob_walk root d
  | VList l => nob_elems nob_walk root 0 l
  | _ => []
  end.

Definition nob_paths (data : value) : list (list string * value) :=
  ([], data) :: nob_walk [] data.

(** [str(path)] of a nob path: ["/"] for the root, ["/a/0/b"] otherwise. *)
Definition nob_path_str (p : list string) : string :=
  "/" ++ PyStr.join "/" p.


(* ================================================================== *)
(** ** [easyDataverse/core/dataset.py]: class [Dataset]                *)
(* ================================================================== *)

(** Modelled from the spec: the File Entry record of
    [easyDataverse/core/file.py], whose declaration is not among the
    sources: filename, local path, remote directory, description and the
    optional remote identifier.  Equality of pydantic models is equality
    of all fields. *)
Record File : Type := {
  filename : string;
  dv_dir : string;
  local_path : string;
  description : string;
  file_pid : option string
}.

Definition option_eqb (a b : option string) : bool :=
  match a, b with
  | None, None => true
  | Some x, Some y => String.eqb x y
  | _, _ => false
  end.

(** [f == g] on [File] instances. *)
Definition File_eqb (f g : File) : bool :=
  String.eqb (filename f) (filename g)
  && String.eqb (dv_dir f) (dv_dir g)
  && String.eqb (local_path f) (local_path g)
  && String.eqb (description f) (description g)
  && option_eqb (file_pid f) (file_pid g).

Record Dataset : Type := {
  metadatablocks : pydict;
  p_id : option string;
  files : list File
}.

Definition set_files (self : Dataset) (fs : list File) : Dataset :=
  {| metadatablocks := metadatablocks self; p_id := p_id self; files := fs |}.

Definition REQUIRED_FIELDS : list string :=
  ["citation/title";
   "citation/author/name";
   "citation/dataset_contact/name";
   "citation/dataset_contact/email";
   "citation/ds_description/value";
   "citation/subject"].

(** [Dataset.add_metadatablock].  The final [setattr(self, block_name,
    metadatablock)] adds an attribute that none of the embedded methods
    reads, as long as [block_name] is not the name of a field of
    [Dataset] (see [dataset_field_names]); for such a name it would
    overwrite the field, which this record cannot hold, so the
    properties of this function are stated for other names. *)
Definition add_metadatablock (self : Dataset) (metadatablock : value)
  : Dataset * result unit :=
  match metadatablock with
  | VModel m =>
      match _metadatablock_name m with
      | None =>
          (self, Raise (TypeError
             ("The provided class " ++ class_name m ++
              " has no metadatablock name and is thus not compatible with this function.")))
      | Some block_name =>
          ({| metadatablocks := dict_set block_name metadatablock
                                         (metadatablocks self);
              p_id := p_id self;
              files := files self |}, Ok tt)
      end
  | _ => (self, Raise (TypeError "Expected class of type 'DataverseBase'"))
  end.

(** The fields that the class [Dataset] declares. *)
Definition dataset_field_names : list string :=
  ["metadatablocks"; "p_id"; "files"; "API_TOKEN"; "DATAVERSE_URL"].

(** [file in self.files]. *)
Definition file_in (file : File) (fs : list File) : bool :=
  existsb (File_eqb file) fs.

(** [Dataset.add_file]: the new state together with the outcome. *)
Definition add_file (self : Dataset) (local_path0 dv_dir0 description0 : string)
  : Dataset * result unit :=
  let filename0 := OsPath.basename local_path0 in
  let file := {| filename := filename0;
                 dv_dir := dv_dir0;
                 local_path := local_path0;
                 description := description0;
                 file_pid := None |} in
  if negb (file_in file (files self))
  then (set_files self (files self ++ [file])%list, Ok tt)
  else (self, Raise (FileExistsError "File has already been added to the dataset")).

(** [Dataset._has_hidden_dir]. *)
Definition _has_hidden_dir (path dirpath : string) : bool :=
  if String.eqb path dirpath then false
  else
    let path := PyStr.replace (dirpath ++ OsPath.sep) "" path in
    let dirs := PyStr.split "/" (OsPath.normpath path) in
    existsb (fun dir => PyStr.startswith dir ".") dirs.

(** The list [dirs] of [Dataset._has_ignore_dirs]. *)
Definition ignore_dirs (path dirpath : string) : list string :=
  let path := PyStr.replace (dirpath ++ OsPath.sep) "" path in
  PyStr.split "/" (OsPath.normpath path).

(** [Dataset._has_ignore_dirs]: the list [check] is built by the two
    nested loops and then tested with [any]. *)
Definition _has_ignore_dirs (path dirpath : string) (ignores : list string)
  : bool :=
  let dirs := ignore_dirs path dirpath in
  let check :=
    flat_map (fun ignore =>
      flat_map (fun dir =>
        if Nat.ltb 0 (String.length ignore)
        then [PyStr.contains (PyStr.replace "/" "" ignore) dir]
        else []) dirs) ignores in
  existsb (fun b => b) check.

(** The inner loop "substitute new files with old files": the first entry
    with the same filename gets the new local path. *)
Fixpoint substitute (fname lpath : string) (fs : list File)
  : bool * list File :=
  match fs with
  | [] => (false, [])
  | f :: r =>
      if String.eqb (filename f) fname
      then (true, {| filename := filename f; dv_dir := dv_dir f;
                     local_path := lpath; description := description f;
                     file_pid := file_pid f |} :: r)
      else let '(found, r') := substitute fname lpath r in (found, f :: r')
  end.

(** Lines 120-149: what is done with one retained file of a directory. *)
Definition ingest_file (dirpath dv_dir0 path file : string) (self : Dataset)
  : Dataset * result unit :=
  let filepath := OsPath.join path [file] in
  let path_parts :=
    filter (fun p => negb (existsb (String.eqb p) (PyStr.split "/" dirpath)))
           (PyStr.split "/" filepath) in
  match path_parts with
  | [] => (self, Raise (TypeError "join() missing 1 required positional argument: 'a'"))
  | a :: rest =>
      let filename0 := OsPath.join a rest in
      if String.eqb dirpath EmptyString
      then (self, Raise (ValueError "empty separator"))
      else
        let dv_pre :=
          if negb (String.eqb dirpath ".")
          then OsPath.join dv_dir0
                 [OsPath.dirname (PyStr.split_last dirpath filepath)]
          else dv_dir0 in
        let data_file := {| filename := filename0; dv_dir := dv_pre;
                            local_path := filepath; description := "";
                            file_pid := None |} in
        let '(found, fs) := substitute filename0 (local_path data_file)
                                       (files self) in
        if found then (set_files self fs, Ok tt)
        else (set_files self (files self ++ [data_file])%list, Ok tt)
  end.

(** Lines 115-149: the loop over the files of one directory. *)
Fixpoint ingest_files (dirpath dv_dir0 path : string) (fnames : list string)
         (self : Dataset) : Dataset * result unit :=
  match fnames with
  | [] => (self, Ok tt)
  | file :: rest =>
      if PyStr.startswith file "."
      then ingest_files dirpath dv_dir0 path rest self
      else
        match ingest_file dirpath dv_dir0 path file self with
        | (self', Ok _) => ingest_files dirpath dv_dir0 path rest self'
        | (self', Raise e) => (self', Raise e)
        end
  end.

(** Lines 104-149: the loop over the triples that [os.walk] yields (the
    directory names of a triple are not used). *)
Fixpoint ingest_walk (dirpath dv_dir0 : string) (include_hidden : bool)
         (ignores : list string) (walked : list (string * list string))
         (self : Dataset) : Dataset * result unit :=
  match walked with
  | [] => (self, Ok tt)
  | (path, fnames) :: rest =>
      if _has_hidden_dir path dirpath && negb include_hidden
      then ingest_walk dirpath dv_dir0 include_hidden ignores rest self
      else if _has_ignore_dirs path dirpath ignores
      then ingest_walk dirpath dv_dir0 include_hidden ignores rest self
      else
        match ingest_files dirpath dv_dir0 path fnames self with
        | (self', Ok _) =>
            ingest_walk dirpath dv_dir0 include_hidden ignores rest self'
        | (self', Raise e) => (self', Raise e)
        end
  end.

(** What [add_directory] observes of the file system: [os.path.isdir]
    and the triples of [os.walk] (path and file names). *)
Record FileSystem : Type := {
  isdir : string -> bool;
  os_walk : string -> list (string * list string)
}.

(** [Dataset.add_directory]. *)
Definition add_directory (fs : FileSystem) (self : Dataset)
           (dirpath dv_dir0 : string) (include_hidden : bool)
           (ignores : list string) : Dataset * result unit :=
  if negb (isdir fs dirpath)
  then (self, Raise (FileNotFoundError
          ("Directory at " ++ dirpath ++
           " does not exist or is not a directory. Please provide a valid directory.")))
  else ingest_walk dirpath dv_dir0 include_hidden ignores
                   (os_walk fs dirpath) self.

(** *** Validation *)

Definition msg_block_missing (metadatablock : string) : string :=
  "Metadatablock '" ++ metadatablock ++
  "' is not present in the dataset. Please use 'list_metadatablocks' to see which metadatablocks are registered.".

Definition msg_field_empty (path : string) : string :=
  "⚠️ Field '" ++ path ++
  "' is empty yet required. Please provide a value for this field.".

Definition msg_field_absent (path : string) : string :=
  "⚠️ Field '" ++ path ++
  "' is not present in the dataset. Please provide a value for this field.".

Definition msg_required_missing : string :=
  "Required fields are missing or empty. Please provide a value for these fields.".

(** ["/".join([part for part in str(dspath).split("/") if not part.isdigit()])]. *)
Definition meta_path (dspath : list string) : string :=
  PyStr.join "/"
    (filter (fun part => negb (PyStr.isdigit part))
            (PyStr.split "/" (nob_path_str dspath))).

(** The state of the loop over [metadatablock.paths]. *)
Record scan : Type := {
  results : list bool;
  field_exists : bool;
  printed : list string
}.

Definition scan_step (path field_path : string) (st : scan)
           (item : list string * value) : scan :=
  let '(dspath, val) := item in
  if negb (String.eqb (meta_path dspath) field_path) then st
  else if is_none val
       then {| results := (results st ++ [false])%list;
               field_exists := true;
               printed := (printed st ++ [msg_field_empty path])%list |}
       else {| results := results st;
               field_exists := true;
               printed := printed st |}.

(** [Dataset._validate_required_field]: the lines printed and the
    outcome.  Strings are sequences of bytes, so the warning sign that
    starts each printed line is its UTF-8 encoding. *)
Definition _validate_required_field (self : Dataset) (path : string)
  : list string * result bool :=
  match PyStr.split "/" path with
  | [] => ([], Raise (ValueError "not enough values to unpack"))
  | metadatablock :: field =>
      let field_path := "/" ++ PyStr.join "/" field in
      match dict_get metadatablock (metadatablocks self) with
      | None => ([], Raise (ValueError (msg_block_missing metadatablock)))
      | Some (VModel block) =>
          let nob := VDict (dict_ false block) in
          let st := fold_left (scan_step path field_path) (nob_paths nob)
                      {| results := []; field_exists := false; printed := [] |} in
          let st :=
            if negb (field_exists st)
            then {| results := (results st ++ [false])%list;
                    field_exists := field_exists st;
                    printed := (printed st ++ [msg_field_absent path])%list |}
            else st in
          (printed st, Ok (Nat.eqb (List.length (results st)) 0))
      | Some _ => ([], Raise (AttributeError "object has no attribute 'dict'"))
      end
  end.

(** The loop of [Dataset._validate_required_fields] over the required
    paths: an exception of a single validation ends the loop. *)
Fixpoint validate_each (self : Dataset) (paths : list string)
         (out : list string) (acc : list bool)
  : list string * result (list bool) :=
  match paths with
  | [] => (out, Ok acc)
  | field :: rest =>
      match _validate_required_field self field with
      | (lines, Ok r) =>
          validate_each self rest (out ++ lines)%list (acc ++ [r])%list
      | (lines, Raise e) => ((out ++ lines)%list, Raise e)
      end
  end.

(** [Dataset._validate_required_fields], for a list of required paths
    ([REQUIRED_FIELDS] in the source). *)
Definition validate_required (required : list string) (self : Dataset)
  : list string * result unit :=
  match validate_each self required [] [] with
  | (out, Ok results) =>
      if forallb (fun result => result) results then (out, Ok tt)
      else (out, Raise (AssertionError msg_required_missing))
  | (out, Raise e) => (out, Raise e)
  end.

Definition _validate_required_fields (self : Dataset)
  : list string * result unit :=
  validate_required REQUIRED_FIELDS self.

(* ================================================================== *)
(** ** Notions used in the statements                                  *)
(* ================================================================== *)

(** The concretizations of a required field path in a block: the paths of
    the block's dict form which, once their index segments are stripped,
    equal the field path; each comes with the value stored there. *)
Definition concretizations (block : DataverseBase) (field_path : string)
  : list (list string * value) :=
  filter (fun item => String.eqb (meta_path (fst item)) field_path)
         (nob_paths (VDict (dict_ false block))).

(** A required path passes when its validation returns [True]. *)
Definition passes (self : Dataset) (path : string) : bool :=
  match snd (_validate_required_field self path) with
  | Ok b => b
  | Raise _ => false
  end.

(** The wire names declared by the descriptors of a list of attributes. *)
Definition wire_names (fs : list (string * FieldInfo * value)) : list string :=
  flat_map (fun f => match json_schema_extra (snd (fst f)) with
                     | Some p => [typeName p]
                     | None => []
                     end) fs.

(* ================================================================== *)
(** ** Sample metadata objects                                         *)
(* ================================================================== *)

Definition descriptor (name class : string) (mult : bool) : FieldInfo :=
  {| alias := None;
     json_schema_extra :=
       Some {| typeName := name; typeClass := class; multiple := mult |} |}.

(** A compound with a name and an affiliation. *)
Definition author (name affiliation : value) : value :=
  VModel {| class_name := "Author";
            _metadatablock_name := None;
            model_fields :=
              [("name", descriptor "authorName" "primitive" false, name);
               ("affiliation", descriptor "authorAffiliation" "primitive" false,
                affiliation)] |}.

(** A metadata block named "citation" with a title, a repeated author
    compound and a list of subjects. *)
Definition citation (title : value) (authors subjects : list value)
  : DataverseBase :=
  {| class_name := "Citation";
     _metadatablock_name := Some "citation";
     model_fields :=
       [("title", descriptor "title" "primitive" false, title);
        ("author", descriptor "author" "compound" true, VList authors);
        ("subject", descriptor "subject" "controlledVocabulary" true,
         VList subjects)] |}.

Definition dataset_with (name : string) (block : DataverseBase) : Dataset :=
  {| metadatablocks := [(name, VModel block)]; p_id := None; files := [] |}.

(** Two authors, the second without a name. *)
Definition two_authors : Dataset :=
  dataset_with "citation"
    (citation (VStr "Title")
              [author (VStr "Jane") VNone; author VNone (VStr "Uni")]
              [VStr "Chemistry"]).

(** A dataset whose only block is registered under "geospatial". *)
Definition geospatial_only : Dataset :=
  dataset_with "geospatial"
    {| class_name := "Geospatial";
       _metadatablock_name := Some "geospatial";
       model_fields :=
         [("unit", descriptor "geographicUnit" "primitive" true,
           VList [VStr "km"])] |}.

(** The pairs handed to [json_obj.update] by the loop of [dataverse_dict],
    listed in declaration order of the attributes: one per attribute that
    is not skipped. *)
Section CollectSteps.
Variable model_str : DataverseBase -> string.
Variable dataverse_dict_of : value -> result value.

Fixpoint collect_steps (fs : list (string * FieldInfo * value))
  : result (list (string * value)) :=
  match fs with
  | [] => Ok []
  | f :: rest =>
      step <- field_step model_str dataverse_dict_of f ;;
      es <- collect_steps rest ;;
      Ok (match step with
          | None => es
          | Some e => e :: es
          end)
  end.
End CollectSteps.

(** [mappings_in_order self]: the per-field mappings of [self], in
    declaration order. *)
Definition mappings_in_order (model_str : DataverseBase -> string)
           (self : DataverseBase) : result (list (string * value)) :=
  collect_steps model_str (dataverse_dict_of model_str) (model_fields self).

(** Successive [json_obj.update] calls. *)
Definition dict_update_all (es : list (string * value)) (d : pydict) : pydict :=
  fold_left (fun d e => dict_set (fst e) (snd e) d) es d.

(** [e["typeName"]] of a per-field mapping. *)
Definition mapping_name (e : value) : option value :=
  match e with
  | VDict d => dict_get "typeName" d
  | _ => None
  end.

(** A block whose title is null and whose single contact compound has a
    name and an empty list as affiliation. *)
Definition contact_block (title name affiliation : value) : DataverseBase :=
  {| class_name := "Contact";
     _metadatablock_name := Some "contact";
     model_fields :=
       [("title", descriptor "title" "primitive" false, title);
        ("contact", descriptor "datasetContact" "compound" false,
         author name affiliation)] |}.

(** A block with a primitive note and a plain mapping. *)
Definition notes_block (note extra : value) : DataverseBase :=
  {| class_name := "Notes";
     _metadatablock_name := Some "notes";
     model_fields :=
       [("note", descriptor "noteText" "primitive" false, note);
        ("extra", descriptor "noteExtra" "primitive" false, extra);
        ("kind", descriptor "noteKind" "primitive" false, VStr "plain")] |}.

(** A rendering of model instances used where one is needed. *)
Definition class_name_str (m : DataverseBase) : string := class_name m.

(** A citation block without a title, with one author and one subject. *)
Definition sample_citation : DataverseBase :=
  citation VNone [author (VStr "Jane") VNone] [VStr "Chemistry"].

(** A notes block holding the empty string and an empty plain mapping. *)
Definition sample_notes : DataverseBase :=
  notes_block (VStr "") (VDict []).

(** Well-typed models: every attribute that is serialized carries a
    descriptor, and an attribute of type class "compound" holds a model
    instance or a list of model instances, which are well-typed in turn. *)
Section WellTyped.
Variable ok : value -> bool.

Definition compound_ok (x : value) : bool :=
  match x with
  | VList l => forallb ok l
  | _ => ok x
  end.

Definition attr_ok (f : string * FieldInfo * value) : bool :=
  let '(attr, field, x) := f in
  is_helper_name attr
  || is_empty x
  || match json_schema_extra field with
     | None => false
     | Some p =>
         if String.eqb (typeClass p) "compound" then compound_ok x else true
     end.
End WellTyped.

Fixpoint serializable (v : value) : bool :=
  match v with
  | VModel m => forallb (attr_ok serializable) (model_fields m)
  | _ => false
  end.

(** A plain path component: not empty, not ["."], not [".."] and without
    a separator. *)
Definition plain_component (c : string) : bool :=
  negb (String.eqb c "") && negb (String.eqb c ".")
  && negb (String.eqb c "..") && negb (PyStr.has_char "/" c).

(** A sample file system: a root with one file and one sub-directory. *)
Definition sample_fs : FileSystem :=
  {| isdir := fun p => String.eqb p "root";
     os_walk := fun _ => [("root", ["a.txt"; ".secret"]);
                          ("root/sub", ["b.txt"])] |}.

Definition empty_dataset : Dataset :=
  {| metadatablocks := []; p_id := None; files := [] |}.

(* ================================================================== *)
(** ** Further methods of [DataverseBase] and [Dataset]                *)
(* ================================================================== *)

(** [DataverseBase._keys_to_camel] and [Dataset._keys_to_camel] (same
    body): only values that are dicts are descended into. *)
Section KeysToCamel.
Variable camel_value : value -> value.

Fixpoint camel_items (dictionary : pydict) (nu_dict : pydict) : pydict :=
  match dictionary with
  | [] => nu_dict
  | (key, v) :: rest =>
      camel_items rest
        (dict_set (_snake_to_camel key)
                  (match v with
                   | VDict _ => camel_value v
                   | _ => v
                   end) nu_dict)
  end.
End KeysToCamel.

Fixpoint keys_to_camel_value (v : value) : value :=
  match v with
  | VDict d => VDict (camel_items keys_to_camel_value d [])
  | _ => v
  end.

Definition _keys_to_camel (dictionary : pydict) : pydict :=
  camel_items keys_to_camel_value dictionary [].

(** [Dataset.replace_file]. *)
Definition replace_file (self : Dataset) (filename0 local_path0 : string)
  : Dataset * result unit :=
  let file := filter (fun f => String.eqb (filename f) filename0) (files self) in
  match file with
  | [] =>
      (self, Raise (ValueError
         ("File '" ++ filename0 ++
          "' is not present in the dataset. Please use 'list_files' to see which files are registered.")))
  | [_] =>
      (set_files self (snd (substitute filename0 local_path0 (files self))),
       Ok tt)
  | _ :: _ :: _ =>
      (self, Raise (ValueError
         "More than one file found under filename '{filename}'. This is actually impossible, but better to have an exception for the exception :-)"))
  end.

(** [Dataset.dataverse_dict]: the loop [blocks.update(block.dataverse_dict())]
    and the envelope. *)
Section DatasetDataverseDict.
Variable model_str : DataverseBase -> string.

Fixpoint merge_blocks (blocks_in : list value) (blocks : pydict)
  : result pydict :=
  match blocks_in with
  | [] => Ok blocks
  | block :: rest =>
      d <- dataverse_dict_of model_str block ;;
      match d with
      | VDict items => merge_blocks rest (dict_update_all items blocks)
      | _ => Raise (TypeError "dictionary update sequence expected")
      end
  end.

Definition Dataset_dataverse_dict (self : Dataset) : result value :=
  blocks <- merge_blocks (dict_values (metadatablocks self)) [] ;;
  Ok (VDict [("datasetVersion", VDict [("metadataBlocks", VDict blocks)])]).
End DatasetDataverseDict.

(** [Dataset.dict]: the loop over [self.metadatablocks.items()]. *)
Fixpoint export_blocks (items : pydict) (out : pydict) : result pydict :=
  match items with
  | [] => Ok out
  | (name, VModel block) :: rest =>
      match dict_ true block with
      | [] => export_blocks rest out
      | exported => export_blocks rest (dict_set name (VDict exported) out)
      end
  | (_, _) :: _ => Raise (AttributeError "object has no attribute 'dict'")
  end.

Definition Dataset_dict (self : Dataset) : result value :=
  let data := [("metadatablocks", VDict [])] in
  let data :=
    match p_id self with
    | Some id => if String.eqb id "" then data
                 else dict_set "dataset_id" (VStr id) data
    | None => data
    end in
  blocks <- export_blocks (metadatablocks self) [] ;;
  Ok (VDict (dict_set "metadatablocks" (VDict blocks) data)).

(** [Dataset.list_metadatablocks]: the lines printed. *)
Fixpoint list_metadatablocks_lines (blocks : list value)
  : list string * result unit :=
  match blocks with
  | [] => ([], Ok tt)
  | VModel m :: rest =>
      match _metadatablock_name m with
      | Some name =>
          let '(lines, r) := list_metadatablocks_lines rest in
          (name :: lines, r)
      | None =>
          ([], Raise (AttributeError
                        "object has no attribute '_metadatablock_name'"))
      end
  | _ :: _ =>
      ([], Raise (AttributeError
                    "object has no attribute '_metadatablock_name'"))
  end.

Definition list_metadatablocks (self : Dataset) : list string * result unit :=
  list_metadatablocks_lines (dict_values (metadatablocks self)).

(** [Dataset.upload] and [Dataset.update].  The transport functions of
    [easyDataverse.tools.uploader] reach the network; they are parameters
    here, given the dataverse dict from which the JSON text is dumped, the
    file list and the current identifier. *)
Section Transport.
Variable model_str : DataverseBase -> string.
Variable upload_to_dataverse :
  value -> string -> list File -> option string -> result string.
Variable update_dataset : value -> option string -> list File -> result unit.


End Transport.

(** [uploader.__uploadFiles]: the files are submitted in list order; the
    answer of the remote service to a request may depend on the requests
    made before.  A request is the identifier of the dataset, the local
    path, the filename and the directory label. *)
Record Response : Type := {
  status_code : nat;
  text : string
}.

Definition upload_request (p_id0 : string) (file : File)
  : string * string * string * string :=
  (p_id0, local_path file, filename file, dv_dir file).

Section UploadFiles.
Variable upload_datafile :
  list (string * string * string * string) ->
  string * string * string * string -> Response.

Fixpoint uploadFiles (fs : list File) (p_id0 : string)
         (sent : list (string * string * string * string))
  : list (string * string * string * string) * result unit :=
  match fs with
  | [] => (sent, Ok tt)
  | file :: rest =>
      let request := upload_request p_id0 file in
      let response := upload_datafile sent request in
      if negb (Nat.eqb (status_code response) 200)
      then ((sent ++ [request])%list,
            Raise (ValueError ("Upload failed: "
                               ++ str_of_nat (status_code response)
                               ++ " " ++ text response)))
      else uploadFiles rest p_id0 (sent ++ [request])%list
  end.
End UploadFiles.

(** A block with an attribute whose name merely contains "add_". *)
Definition address_block : DataverseBase :=
  {| class_name := "Address";
     _metadatablock_name := Some "address";
     model_fields :=
       [("street", descriptor "street" "primitive" false, VStr "Main");
        ("address_add_on", descriptor "addOn" "primitive" false,
         VStr "2nd floor")] |}.

(** A block whose compound attribute holds a string. *)
Definition ill_typed_block : DataverseBase :=
  {| class_name := "Broken";
     _metadatablock_name := Some "broken";
     model_fields :=
       [("contact", descriptor "datasetContact" "compound" false,
         VStr "Jane")] |}.

(** A value without a [dataverse_dict] method: anything but a model. *)
Definition not_a_model (v : value) : bool :=
  match v with
  | VModel _ => false
  | _ => true
  end.

(** The invariant that [add_metadatablock] keeps: keys are unique and
    every block is a model stored under its own block name. *)
Definition blocks_registered_by_name (blocks : pydict) : Prop :=
  NoDup (dict_keys blocks)
  /\ forall k v, In (k, v) blocks ->
                 exists m, v = VModel m /\ _metadatablock_name m = Some k.

(** What a registered block contributes to the merged wire form: its
    fields under its key when it has any, nothing otherwise. *)
Definition wire_block_entry (model_str : DataverseBase -> string)
           (kv : string * value) : pydict :=
  match snd kv with
  | VModel m =>
      match json_obj_of model_str m with
      | Ok (f :: fs) =>
          [(fst kv, VDict [("fields", VList (dict_values (f :: fs)))])]
      | _ => []
      end
  | _ => []
  end.

(** What a registered block contributes to the generic export. *)
Definition export_block_entry (kv : string * value) : pydict :=
  match snd kv with
  | VModel m =>
      match dict_ true m with
      | [] => []
      | exported => [(fst kv, VDict exported)]
      end
  | _ => []
  end.

(** A dataset with two registered blocks, the second without content. *)
Definition two_blocks : Dataset :=
  {| metadatablocks :=
       [("citation", VModel sample_citation);
        ("contact", VModel (contact_block VNone VNone VNone))];
     p_id := Some "";
     files := [] |}.

(** What ingestion and [replace_file] never change in a file entry:
    everything but the local path. *)
Definition fixed_part (f : File) : string * string * string * option string :=
  (filename f, dv_dir f, description f, file_pid f).

(** [f] with its local path set to [lpath]. *)
Definition with_local_path (lpath : string) (f : File) : File :=
  {| filename := filename f; dv_dir := dv_dir f; local_path := lpath;
     description := description f; file_pid := file_pid f |}.

(** The entry that [add_file] builds. *)
Definition new_file (local_path0 dv_dir0 description0 : string) : File :=
  {| filename := OsPath.basename local_path0; dv_dir := dv_dir0;
     local_path := local_path0; description := description0;
     file_pid := None |}.

(** *** Ingestion as a plan

    What [add_directory] does to the file list does not depend on the
    list: each retained file yields an entry (or an exception), which is
    then merged into the list. *)

(** The entry computed for one retained file (lines 120-138). *)
Definition planned_file (dirpath dv_dir0 path file : string) : result File :=
  let filepath := OsPath.join path [file] in
  let path_parts :=
    filter (fun p => negb (existsb (String.eqb p) (PyStr.split "/" dirpath)))
           (PyStr.split "/" filepath) in
  match path_parts with
  | [] => Raise (TypeError "join() missing 1 required positional argument: 'a'")
  | a :: rest =>
      if String.eqb dirpath EmptyString
      then Raise (ValueError "empty separator")
      else
        Ok {| filename := OsPath.join a rest;
              dv_dir := if negb (String.eqb dirpath ".")
                        then OsPath.join dv_dir0
                               [OsPath.dirname
                                  (PyStr.split_last dirpath filepath)]
                        else dv_dir0;
              local_path := filepath;
              description := "";
              file_pid := None |}
  end.

(** Merging an entry into the list (lines 140-149). *)
Definition upsert (d : File) (fs : list File) : list File :=
  let '(found, fs') := substitute (filename d) (local_path d) fs in
  if found then fs' else (fs ++ [d])%list.

Definition plan_files (dirpath dv_dir0 path : string) (fnames : list string)
  : list (result File) :=
  map (planned_file dirpath dv_dir0 path)
      (filter (fun file => negb (PyStr.startswith file ".")) fnames).

Definition plan_walk (dirpath dv_dir0 : string) (include_hidden : bool)
           (ignores : list string) (walked : list (string * list string))
  : list (result File) :=
  flat_map (fun entry =>
              if _has_hidden_dir (fst entry) dirpath && negb include_hidden
              then []
              else if _has_ignore_dirs (fst entry) dirpath ignores then []
              else plan_files dirpath dv_dir0 (fst entry) (snd entry))
           walked.

Fixpoint run_plan (ops : list (result File)) (fs : list File)
  : list File * result unit :=
  match ops with
  | [] => (fs, Ok tt)
  | Raise e :: _ => (fs, Raise e)
  | Ok d :: rest => run_plan rest (upsert d fs)
  end.

(** The local path that a sequence of merges leaves for a filename. *)
Fixpoint last_local_path (ds : list File) (fname : string) : option string :=
  match ds with
  | [] => None
  | d :: rest =>
      match last_local_path rest fname with
      | Some lpath => Some lpath
      | None => if String.eqb (filename d) fname
                then Some (local_path d) else None
      end
  end.

Definition repoint (ds : list File) (f : File) : File :=
  match last_local_path ds (filename f) with
  | Some lpath => with_local_path lpath f
  | None => f
  end.

(** A file system with a hidden directory below the root. *)
Definition hidden_fs : FileSystem :=
  {| isdir := fun p => String.eqb p "root";
     os_walk := fun _ => [("root", ["a.txt"]);
                          ("root/.git", ["config"]);
                          ("root/.git/hooks", ["pre-commit"])] |}.



Definition refuse_second
           (sent : list (string * string * string * string))
           (request : string * string * string * string) : Response :=
  match sent with
  | [_] => {| status_code := 500; text := "busy" |}
  | _ => {| status_code := 200; text := "OK" |}
  end.


(* ================================================================== *)
(** * Properties                                                       *)
(* ================================================================== *)

(** ** Strings: splitting and joining *)

Section SplitJoin.
Variable sep : ascii.

Lemma split_nonnil s : PyStr.split sep s <> [].
Proof.
  destruct s as [|c r]; simpl; [discriminate|].
  destruct (Ascii.eqb c sep); [discriminate|].
  destruct (PyStr.split sep r); discriminate.
Qed.

Lemma split_without_sep s :
  PyStr.has_char sep s = false -> PyStr.split sep s = [s].
Proof.
  induction s as [|c r IH]; simpl; [reflexivity|].
  intros H. apply orb_false_elim in H as [Hc Hr].
  rewrite Hc, (IH Hr). reflexivity.
Qed.

Lemma split_app_sep a b :
  PyStr.has_char sep a = false ->
  PyStr.split sep (a ++ String sep b) = a :: PyStr.split sep b.
Proof.
  induction a as [|c r IH]; simpl; intros H.
  - rewrite Ascii.eqb_refl. reflexivity.
  - apply orb_false_elim in H as [Hc Hr].
    rewrite Hc, (IH Hr). reflexivity.
Qed.

Lemma split_join segs :
  segs <> [] ->
  Forall (fun s => PyStr.has_char sep s = false) segs ->
  PyStr.split sep (PyStr.join (String sep EmptyString) segs) = segs.
Proof.
  induction segs as [|x r IH]; intros Hne Hall; [congruence|].
  inversion Hall as [|? ? Hx Hr]; subst.
  destruct r as [|y r'].
  - simpl. apply split_without_sep; assumption.
  - change (PyStr.join (String sep "") (x :: y :: r'))
      with (x ++ String sep (PyStr.join (String sep "") (y :: r'))).
    rewrite split_app_sep by assumption.
    rewrite IH; [reflexivity|discriminate|assumption].
Qed.
End SplitJoin.

(** ** Snake case to camel case *)

Lemma capitalize_or_underscore_nonempty x :
  capitalize_or_underscore x <> "".
Proof. destruct x; discriminate. Qed.

Lemma capitalize_or_underscore_segment x :
  x <> "" -> capitalize_or_underscore x = PyStr.capitalize x.
Proof. destruct x; [congruence|reflexivity]. Qed.

(** C7.  [_snake_to_camel "this_is_snake"] is ["ThisIsSnake"] and
    [_snake_to_camel "a__b"] is ["A_B"]; in general, for a word made of
    the segments [segs] separated by underscores, the result is the
    concatenation of the segments' images, where the image of an empty
    segment is the literal underscore, the image of a non-empty segment is
    its capitalisation, and no image is the empty string. *)
Theorem snake_to_camel_segments :
  _snake_to_camel "this_is_snake" = "ThisIsSnake"
  /\ _snake_to_camel "a__b" = "A_B"
  /\ capitalize_or_underscore "" = "_"
  /\ (forall x, capitalize_or_underscore x <> "")
  /\ (forall x, x <> "" -> capitalize_or_underscore x = PyStr.capitalize x)
  /\ forall segs,
       segs <> [] ->
       Forall (fun s => PyStr.has_char "_" s = false) segs ->
       _snake_to_camel (PyStr.join "_" segs)
       = PyStr.join "" (map capitalize_or_underscore segs).
Proof.
  repeat split; try reflexivity.
  - apply capitalize_or_underscore_nonempty.
  - apply capitalize_or_underscore_segment.
  - intros segs Hne Hall. unfold _snake_to_camel.
    rewrite split_join by assumption. reflexivity.
Qed.

Lemma snake_to_camel_segments_witness :
  ["x"; ""; ""; "yZ"] <> []
  /\ Forall (fun s => PyStr.has_char "_" s = false) ["x"; ""; ""; "yZ"]
  /\ _snake_to_camel (PyStr.join "_" ["x"; ""; ""; "yZ"])
     = PyStr.join "" (map capitalize_or_underscore ["x"; ""; ""; "yZ"]).
Proof.
  split; [discriminate|]. split; [repeat constructor|].
  apply snake_to_camel_segments; [discriminate | repeat constructor].
Defined.

(** ** File entries *)

Lemma option_eqb_refl o : option_eqb o o = true.
Proof. destruct o; simpl; [apply String.eqb_refl|reflexivity]. Qed.

Lemma File_eqb_refl f : File_eqb f f = true.
Proof.
  unfold File_eqb. rewrite !String.eqb_refl, option_eqb_refl. reflexivity.
Qed.

Lemma file_in_app_self file fs : file_in file (fs ++ [file])%list = true.
Proof.
  unfold file_in. rewrite existsb_app. simpl.
  rewrite File_eqb_refl, orb_true_r. reflexivity.
Qed.

(** C8.  Whatever the dataset, a second [add_file] with the same local
    path, remote directory and description (hence the same filename)
    raises [FileExistsError], and the dataset after the failed call is the
    dataset after the first call: same file list, same length. *)
Theorem add_file_twice_raises :
  forall (self : Dataset) (local_path0 dv_dir0 description0 : string),
    let after1 := fst (add_file self local_path0 dv_dir0 description0) in
    let second := add_file after1 local_path0 dv_dir0 description0 in
    snd second
    = Raise (FileExistsError "File has already been added to the dataset")
    /\ fst second = after1
    /\ files (fst second) = files after1
    /\ List.length (files (fst second)) = List.length (files after1).
Proof.
  intros self lp dd ds after1 second. subst second after1.
  unfold add_file.
  destruct (file_in _ (files self)) eqn:Hin; simpl.
  - rewrite Hin. simpl. auto.
  - rewrite file_in_app_self. simpl. auto.
Qed.

(** ** The required-field validator *)

Section Scan.
Variables path field_path : string.

Let matches (item : list string * value) : bool :=
  String.eqb (meta_path (fst item)) field_path.

Let empty_match (item : list string * value) : bool :=
  matches item && is_none (snd item).

Lemma scan_fold items st :
  field_exists (fold_left (scan_step path field_path) items st)
  = field_exists st || existsb matches items
  /\ results (fold_left (scan_step path field_path) items st)
     = (results st ++ map (fun _ => false) (filter empty_match items))%list
  /\ printed (fold_left (scan_step path field_path) items st)
     = (printed st
          ++ map (fun _ => msg_field_empty path) (filter empty_match items))%list.
Proof.
  revert st. induction items as [|[dspath val] r IH]; intros st.
  - simpl. rewrite orb_false_r, !app_nil_r. auto.
  - cbn [fold_left].
    destruct (IH (scan_step path field_path st (dspath, val)))
      as (He & Hr & Hp).
    rewrite He, Hr, Hp. clear IH He Hr Hp.
    unfold scan_step, empty_match, matches. simpl.
    destruct (String.eqb (meta_path dspath) field_path); simpl.
    + destruct (is_none val); simpl.
      * rewrite orb_true_r, <- !app_assoc. auto.
      * rewrite orb_true_r. auto.
    + auto.
Qed.
End Scan.

Lemma is_none_spec v : is_none v = true <-> v = VNone.
Proof. destruct v; simpl; split; intros H; congruence. Qed.

(** What [_validate_required_field] returns when the block is registered. *)
Lemma validate_required_field_registered self path name field block :
  PyStr.split "/" path = name :: field ->
  dict_get name (metadatablocks self) = Some (VModel block) ->
  let found := concretizations block ("/" ++ PyStr.join "/" field) in
  let nulls := filter (fun item => is_none (snd item)) found in
  _validate_required_field self path
  = ((map (fun _ => msg_field_empty path) nulls
        ++ match found with [] => [msg_field_absent path] | _ => [] end)%list,
     Ok (match found with [] => false | _ => true end
         && match nulls with [] => true | _ => false end)).
Proof.
  intros Hsplit Hget found nulls.
  unfold _validate_required_field. rewrite Hsplit, Hget.
  set (fp := "/" ++ PyStr.join "/" field) in *.
  set (items := nob_paths (VDict (dict_ false block))).
  destruct (scan_fold path fp items
              {| results := []; field_exists := false; printed := [] |})
    as (He & Hr & Hp).
  cbn [results field_exists printed app orb] in He, Hr, Hp.
  set (st := fold_left (scan_step path fp) items _) in *.
  assert (Hnulls : filter (fun item =>
                     String.eqb (meta_path (fst item)) fp && is_none (snd item))
                     items = nulls).
  { subst nulls found. unfold concretizations. fold items.
    clear. induction items as [|it r IH]; simpl; [reflexivity|].
    destruct (String.eqb (meta_path (fst it)) fp); simpl.
    - destruct (is_none (snd it)); rewrite IH; reflexivity.
    - exact IH. }
  rewrite Hnulls in Hr, Hp.
  assert (Hex : field_exists st = match found with [] => false | _ => true end).
  { rewrite He. subst found. unfold concretizations. fold items.
    clear. induction items as [|it r IH]; simpl; [reflexivity|].
    destruct (String.eqb (meta_path (fst it)) fp); simpl; [reflexivity|exact IH]. }
  rewrite Hex. destruct found as [|f0 fr] eqn:Hfound; simpl.
  - assert (nulls = []) by (subst nulls; reflexivity).
    rewrite Hp, Hr, H. reflexivity.
  - rewrite Hp, Hr, app_nil_r. f_equal. f_equal.
    destruct nulls; reflexivity.
Qed.

Lemma filter_none_nil (l : list (list string * value)) :
  filter (fun item => is_none (snd item)) l = []
  <-> Forall (fun item => snd item <> VNone) l.
Proof.
  induction l as [|x r IH]; simpl.
  - split; auto.
  - destruct (is_none (snd x)) eqn:Hx.
    + split; [discriminate|]. intros H. inversion H; subst.
      apply is_none_spec in Hx. contradiction.
    + rewrite IH. split; intros H.
      * constructor; [|assumption]. intros Hn.
        apply is_none_spec in Hn. congruence.
      * inversion H; assumption.
Qed.

(** C1 (as amended).  For a registered block and a required path, the
    validator returns [True] exactly when the path has at least one
    concretization in the block's dict form and every concretization
    holds a non-null value. *)
Theorem required_field_passes_iff :
  forall self path name field block,
    PyStr.split "/" path = name :: field ->
    dict_get name (metadatablocks self) = Some (VModel block) ->
    let found := concretizations block ("/" ++ PyStr.join "/" field) in
    exists b,
      snd (_validate_required_field self path) = Ok b
      /\ (b = true <->
          found <> [] /\ Forall (fun item => snd item <> VNone) found).
Proof.
  intros self path name field block Hsplit Hget found.
  rewrite (validate_required_field_registered self path name field block Hsplit Hget).
  fold found. cbn [snd]. eexists; split; [reflexivity|].
  rewrite <- filter_none_nil.
  destruct found as [|f0 fr].
  - simpl. split; [discriminate|]. intros [H _]. congruence.
  - cbn [andb].
    destruct (filter (fun item => is_none (snd item)) (f0 :: fr)).
    + split; [intros _; split; [discriminate|reflexivity]|reflexivity].
    + split; [discriminate|]. intros [_ H]. discriminate H.
Qed.

Lemma required_field_passes_iff_witness :
  PyStr.split "/" "citation/author/name" = ["citation"; "author"; "name"]
  /\ dict_get "citation" (metadatablocks two_authors)
     = Some (VModel (citation (VStr "Title")
                       [author (VStr "Jane") VNone; author VNone (VStr "Uni")]
                       [VStr "Chemistry"]))
  /\ exists b,
       snd (_validate_required_field two_authors "citation/author/name") = Ok b
       /\ (b = true <->
           concretizations
             (citation (VStr "Title")
                [author (VStr "Jane") VNone; author VNone (VStr "Uni")]
                [VStr "Chemistry"])
             ("/" ++ PyStr.join "/" ["author"; "name"]) <> []
           /\ Forall (fun item => snd item <> VNone)
                (concretizations
                   (citation (VStr "Title")
                      [author (VStr "Jane") VNone; author VNone (VStr "Uni")]
                      [VStr "Chemistry"])
                   ("/" ++ PyStr.join "/" ["author"; "name"]))).
Proof.
  split; [reflexivity|]. split; [reflexivity|].
  apply (@required_field_passes_iff two_authors "citation/author/name"
           "citation" ["author"; "name"]); reflexivity.
Defined.

(** C1, as stated, fails: with two author entries of which the first has
    a name and the second has none, a concretization of
    [citation/author/name] with a non-null value exists, and the validator
    still returns [False]. *)
Lemma required_field_one_null_fails :
  (exists item,
      In item (concretizations
                 (citation (VStr "Title")
                    [author (VStr "Jane") VNone; author VNone (VStr "Uni")]
                    [VStr "Chemistry"])
                 "/author/name")
      /\ snd item <> VNone)
  /\ snd (_validate_required_field two_authors "citation/author/name")
     = Ok false.
Proof.
  split; [|reflexivity].
  exists (["author"; "0"; "name"], VStr "Jane").
  split; [|discriminate]. vm_compute. left. reflexivity.
Qed.

(** *** Aggregation over the required paths *)

Lemma validate_each_ok self paths out acc :
  (forall p, In p paths ->
             exists b, snd (_validate_required_field self p) = Ok b) ->
  validate_each self paths out acc
  = ((out ++ flat_map (fun p => fst (_validate_required_field self p)) paths)%list,
     Ok (acc ++ map (passes self) paths)%list).
Proof.
  revert out acc. induction paths as [|p r IH]; intros out acc Hok; simpl.
  - rewrite !app_nil_r. reflexivity.
  - destruct (Hok p (or_introl eq_refl)) as [b Hb].
    unfold passes at 1.
    destruct (_validate_required_field self p) as [lines res] eqn:Hv.
    simpl in Hb. subst res. simpl.
    rewrite IH by (intros q Hq; apply Hok; right; exact Hq).
    rewrite <- !app_assoc. reflexivity.
Qed.

Lemma validate_each_raises self before path after out acc e :
  (forall p, In p before ->
             exists b, snd (_validate_required_field self p) = Ok b) ->
  snd (_validate_required_field self path) = Raise e ->
  validate_each self (before ++ path :: after)%list out acc
  = ((out ++ flat_map (fun p => fst (_validate_required_field self p)) before
          ++ fst (_validate_required_field self path))%list,
     Raise e).
Proof.
  revert out acc. induction before as [|p r IH]; intros out acc Hok He; simpl.
  - destruct (_validate_required_field self path) as [lines res].
    simpl in He. subst res. reflexivity.
  - destruct (Hok p (or_introl eq_refl)) as [b Hb].
    destruct (_validate_required_field self p) as [lines res] eqn:Hv.
    simpl in Hb. subst res. simpl.
    rewrite IH by (auto; intros q Hq; apply Hok; right; exact Hq).
    rewrite <- !app_assoc. reflexivity.
Qed.

Lemma failing_path_is_printed self path name field block :
  PyStr.split "/" path = name :: field ->
  dict_get name (metadatablocks self) = Some (VModel block) ->
  passes self path = false ->
  In (msg_field_empty path) (fst (_validate_required_field self path))
  \/ In (msg_field_absent path) (fst (_validate_required_field self path)).
Proof.
  intros Hsplit Hget. unfold passes.
  rewrite (validate_required_field_registered self path name field block Hsplit Hget).
  cbn [fst snd].
  destruct (concretizations block _) as [|f0 fr].
  - intros _. right. simpl. left. reflexivity.
  - cbn [andb]. destruct (filter _ (f0 :: fr)); [discriminate|].
    intros _. left. simpl. left. reflexivity.
Qed.

Lemma forallb_id_map {A : Type} (f : A -> bool) l :
  forallb (fun b => b) (map f l) = forallb f l.
Proof. induction l as [|x r IH]; simpl; [|rewrite IH]; reflexivity. Qed.

Lemma required_fields_in_citation p :
  In p REQUIRED_FIELDS -> exists field, PyStr.split "/" p = "citation" :: field.
Proof.
  unfold REQUIRED_FIELDS. simpl.
  intros H.
  repeat (destruct H as [H|H]; [subst p; eexists; reflexivity|]).
  destruct H.
Qed.

(** C4 (as amended).  With the "citation" block registered, dataset-level
    validation evaluates every required path, in order: what it prints is
    the concatenation of what the validation of each required path
    prints, so each failing path has its own printed warning.  It then
    raises one [AssertionError] if some path failed and returns normally
    otherwise.  The message of the error is the fixed text
    [msg_required_missing], whichever paths failed. *)
Theorem required_fields_aggregated :
  forall self block,
    dict_get "citation" (metadatablocks self) = Some (VModel block) ->
    fst (_validate_required_fields self)
    = flat_map (fun p => fst (_validate_required_field self p)) REQUIRED_FIELDS
    /\ (forall p,
          In p REQUIRED_FIELDS -> passes self p = false ->
          In (msg_field_empty p) (fst (_validate_required_fields self))
          \/ In (msg_field_absent p) (fst (_validate_required_fields self)))
    /\ snd (_validate_required_fields self)
       = if forallb (passes self) REQUIRED_FIELDS
         then Ok tt
         else Raise (AssertionError msg_required_missing).
Proof.
  intros self block Hget.
  assert (Hok : forall p, In p REQUIRED_FIELDS ->
                  exists b, snd (_validate_required_field self p) = Ok b).
  { intros p Hp. destruct (required_fields_in_citation p Hp) as [field Hs].
    rewrite (validate_required_field_registered self p "citation" field
               block Hs Hget).
    eexists. reflexivity. }
  assert (Hrun : _validate_required_fields self
                 = (flat_map (fun p => fst (_validate_required_field self p))
                             REQUIRED_FIELDS,
                    if forallb (passes self) REQUIRED_FIELDS
                    then Ok tt
                    else Raise (AssertionError msg_required_missing))).
  { unfold _validate_required_fields, validate_required.
    rewrite (validate_each_ok self REQUIRED_FIELDS [] [] Hok).
    cbn [app]. rewrite forallb_id_map.
    destruct (forallb (passes self) REQUIRED_FIELDS); reflexivity. }
  rewrite Hrun. cbn [fst snd]. split; [reflexivity|]. split; [|reflexivity].
  intros p Hp Hfail.
  destruct (required_fields_in_citation p Hp) as [field Hs].
  destruct (failing_path_is_printed self p "citation" field block Hs Hget Hfail)
    as [H|H];
    [left|right]; apply in_flat_map; exists p; auto.
Qed.

Lemma required_fields_aggregated_witness :
  dict_get "citation" (metadatablocks two_authors)
  = Some (VModel (citation (VStr "Title")
                    [author (VStr "Jane") VNone; author VNone (VStr "Uni")]
                    [VStr "Chemistry"]))
  /\ snd (_validate_required_fields two_authors)
     = if forallb (passes two_authors) REQUIRED_FIELDS
       then Ok tt
       else Raise (AssertionError msg_required_missing).
Proof.
  split; [reflexivity|].
  apply (@required_fields_aggregated two_authors
           (citation (VStr "Title")
              [author (VStr "Jane") VNone; author VNone (VStr "Uni")]
              [VStr "Chemistry"])).
  reflexivity.
Defined.

(** C4, as stated, fails: for the dataset [two_authors] the required
    paths [citation/author/name] and [citation/dataset_contact/name] do
    not pass, one error is raised, and its message names neither. *)
Lemma required_fields_message_is_fixed :
  passes two_authors "citation/author/name" = false
  /\ passes two_authors "citation/dataset_contact/name" = false
  /\ snd (_validate_required_fields two_authors)
     = Raise (AssertionError
         "Required fields are missing or empty. Please provide a value for these fields.")
  /\ PyStr.contains "citation/author/name"
       "Required fields are missing or empty. Please provide a value for these fields."
     = false
  /\ PyStr.contains "citation/dataset_contact/name"
       "Required fields are missing or empty. Please provide a value for these fields."
     = false.
Proof. repeat split; vm_compute; reflexivity. Qed.

(** *** A block that is not registered *)

Lemma prefix_app p b : String.prefix p (p ++ b) = true.
Proof.
  induction p as [|c r IH]; simpl; [destruct b; reflexivity|].
  destruct (ascii_dec c c); [exact IH|congruence].
Qed.

Lemma contains_of_prefix p s :
  String.prefix p s = true -> PyStr.contains p s = true.
Proof. intros H. destruct s; simpl; simpl in H; rewrite H; reflexivity. Qed.

Lemma contains_app p a b : PyStr.contains p (a ++ p ++ b) = true.
Proof.
  induction a as [|c r IH].
  - change ("" ++ p ++ b) with (p ++ b).
    apply contains_of_prefix. apply prefix_app.
  - cbn [append PyStr.contains]. rewrite IH. apply orb_true_r.
Qed.

Lemma contains_skip p a s :
  PyStr.contains p s = true -> PyStr.contains p (a ++ s) = true.
Proof.
  intros H. induction a as [|c r IH]; [exact H|].
  cbn [append PyStr.contains]. rewrite IH. apply orb_true_r.
Qed.

(** C5 (as amended).  When the leading block name of a path is not
    registered, its validation raises a [ValueError] at once: nothing is
    printed and no pass/fail result is produced.  The message names the
    missing block and refers to [list_metadatablocks]; it is a function of
    the block name alone.  In the dataset-level loop the error ends the
    validation: the paths after it are not evaluated and no
    [AssertionError] is raised. *)
Theorem missing_block_raises :
  forall self path name field,
    PyStr.split "/" path = name :: field ->
    dict_get name (metadatablocks self) = None ->
    _validate_required_field self path
    = ([], Raise (ValueError (msg_block_missing name)))
    /\ PyStr.contains name (msg_block_missing name) = true
    /\ PyStr.contains "list_metadatablocks" (msg_block_missing name) = true
    /\ forall before after,
         (forall p, In p before ->
                    exists b, snd (_validate_required_field self p) = Ok b) ->
         validate_required (before ++ path :: after)%list self
         = (flat_map (fun p => fst (_validate_required_field self p)) before,
            Raise (ValueError (msg_block_missing name))).
Proof.
  intros self path name field Hsplit Hget.
  assert (Hv : _validate_required_field self path
               = ([], Raise (ValueError (msg_block_missing name)))).
  { unfold _validate_required_field. rewrite Hsplit, Hget. reflexivity. }
  split; [exact Hv|]. split; [apply contains_app|]. split.
  - unfold msg_block_missing.
    do 2 apply contains_skip. reflexivity.
  - intros before after Hok. unfold validate_required.
    rewrite (validate_each_raises self before path after [] []
               (ValueError (msg_block_missing name)) Hok)
      by (rewrite Hv; reflexivity).
    rewrite Hv. cbn [fst app]. rewrite app_nil_r. reflexivity.
Qed.

Lemma missing_block_raises_witness :
  PyStr.split "/" "citation/title" = ["citation"; "title"]
  /\ dict_get "citation" (metadatablocks geospatial_only) = None
  /\ _validate_required_field geospatial_only "citation/title"
     = ([], Raise (ValueError (msg_block_missing "citation"))).
Proof.
  split; [reflexivity|]. split; [reflexivity|].
  apply (@missing_block_raises geospatial_only "citation/title"
           "citation" ["title"]); reflexivity.
Defined.

(** C5, as stated, fails: "geospatial" is the block registered on the
    dataset, validation of [citation/title] raises, and the message of the
    error does not mention "geospatial". *)
Lemma missing_block_message_lists_nothing :
  dict_keys (metadatablocks geospatial_only) = ["geospatial"]
  /\ snd (_validate_required_field geospatial_only "citation/title")
     = Raise (ValueError
         "Metadatablock 'citation' is not present in the dataset. Please use 'list_metadatablocks' to see which metadatablocks are registered.")
  /\ PyStr.contains "geospatial"
       "Metadatablock 'citation' is not present in the dataset. Please use 'list_metadatablocks' to see which metadatablocks are registered."
     = false.
Proof. repeat split; vm_compute; reflexivity. Qed.

(** ** Dictionaries *)

Lemma dict_set_keys k v d x :
  In x (dict_keys (dict_set k v d)) <-> x = k \/ In x (dict_keys d).
Proof.
  induction d as [|[k' v'] r IH]; simpl.
  - intuition congruence.
  - destruct (String.eqb k' k) eqn:E; simpl.
    + apply String.eqb_eq in E. subst k'. intuition congruence.
    + unfold dict_keys in IH. rewrite IH. intuition congruence.
Qed.

Lemma dict_set_items k v d y :
  In y (dict_set k v d) -> y = (k, v) \/ In y d.
Proof.
  induction d as [|[k' v'] r IH]; simpl.
  - intuition congruence.
  - destruct (String.eqb k' k); simpl; intuition congruence.
Qed.

Lemma dict_set_fresh k v d :
  ~ In k (dict_keys d) -> dict_set k v d = (d ++ [(k, v)])%list.
Proof.
  induction d as [|[k' v'] r IH]; simpl; intros H; [reflexivity|].
  destruct (String.eqb k' k) eqn:E.
  - apply String.eqb_eq in E. subst k'. elim H. left. reflexivity.
  - rewrite IH; [reflexivity|]. intros Hin. apply H. right. exact Hin.
Qed.

Lemma dict_update_all_keys es d x :
  In x (dict_keys (dict_update_all es d))
  <-> In x (map fst es) \/ In x (dict_keys d).
Proof.
  revert d. induction es as [|[k e] r IH]; intros d; simpl.
  - intuition.
  - unfold dict_update_all in IH. rewrite IH, dict_set_keys. intuition.
Qed.

Lemma dict_update_all_items es d y :
  In y (dict_update_all es d) -> In y es \/ In y d.
Proof.
  revert d. induction es as [|[k e] r IH]; intros d; simpl; [auto|].
  intros H. apply IH in H as [H|H]; [auto|].
  apply dict_set_items in H as [H|H]; auto.
Qed.


(** ** The loop of [dataverse_dict] *)


Section FieldsLoop.
Variable model_str : DataverseBase -> string.
Variable rec : value -> result value.

Lemma fields_loop_collect fs json_obj :
  fields_loop model_str rec fs json_obj
  = (es <- collect_steps model_str rec fs ;;
     Ok (dict_update_all es json_obj)).
Proof.
  revert json_obj. induction fs as [|f r IH]; intros json_obj;
    cbn [fields_loop collect_steps].
  - reflexivity.
  - destruct (field_step model_str rec f) as [[[k e]|]|err]; cbn [bind].
    + rewrite IH. destruct (collect_steps model_str rec r); reflexivity.
    + rewrite IH. destruct (collect_steps model_str rec r); reflexivity.
    + reflexivity.
Qed.

(** A step that produces a pair comes from an attribute that is not a
    helper, is not empty and carries a descriptor. *)
Lemma field_step_some attr field v k e :
  field_step model_str rec (attr, field, v) = Ok (Some (k, e)) ->
  is_helper_name attr = false /\ is_empty v = false
  /\ exists p, json_schema_extra field = Some p /\ k = typeName p
               /\ mapping_name e = Some (VStr k).
Proof.
  unfold field_step.
  destruct (is_helper_name attr); [discriminate|].
  destruct (is_empty v); [discriminate|].
  destruct (json_schema_extra field) as [p|]; [|discriminate].
  destruct (if String.eqb (typeClass p) "compound"
            then process_compound rec v else Ok v) as [v1|err];
    simpl; [|discriminate].
  intros H. inversion H; subst. repeat split. exists p. auto.
Qed.


Lemma collect_steps_origin fs es :
  collect_steps model_str rec fs = Ok es ->
  forall y, In y es ->
    exists f, In f fs /\ field_step model_str rec f = Ok (Some y).
Proof.
  revert es. induction fs as [|f r IH]; intros es; cbn [collect_steps].
  - intros H. inversion H. intros y [].
  - destruct (field_step model_str rec f) as [step|err] eqn:Hs;
      cbn [bind]; [|discriminate].
    destruct (collect_steps model_str rec r) as [es'|err];
      cbn [bind]; [|discriminate].
    intros H y Hy. inversion H; subst. clear H.
    destruct step as [e|].
    + destruct Hy as [Hy|Hy].
      * subst y. exists f. split; [left; reflexivity|exact Hs].
      * destruct (IH es' eq_refl y Hy) as (g & Hg & Hstep).
        exists g. split; [right; exact Hg|exact Hstep].
    + destruct (IH es' eq_refl y Hy) as (g & Hg & Hstep).
      exists g. split; [right; exact Hg|exact Hstep].
Qed.

Lemma collect_steps_member fs es f :
  collect_steps model_str rec fs = Ok es ->
  In f fs ->
  exists step, field_step model_str rec f = Ok step
               /\ forall y, step = Some y -> In y es.
Proof.
  revert es. induction fs as [|g r IH]; intros es; cbn [collect_steps];
    [intros _ []|].
  destruct (field_step model_str rec g) as [step|err] eqn:Hs;
    cbn [bind]; [|discriminate].
  destruct (collect_steps model_str rec r) as [es'|err];
    cbn [bind]; [|discriminate].
  intros H Hin. inversion H; subst. clear H.
  destruct Hin as [Hin|Hin].
  - subst g. exists step. split; [exact Hs|].
    intros y Hy. subst step. left. reflexivity.
  - destruct (IH es' eq_refl Hin) as (st & Hst & Hy).
    exists st. split; [exact Hst|].
    intros y Hyy. destruct step; [right|]; auto.
Qed.

End FieldsLoop.

(** Attributes with the same wire name are the same attribute when wire
    names are distinct. *)
Lemma wire_names_inj fs :
  NoDup (wire_names fs) ->
  forall f g p q,
    In f fs -> In g fs ->
    json_schema_extra (snd (fst f)) = Some p ->
    json_schema_extra (snd (fst g)) = Some q ->
    typeName p = typeName q -> f = g.
Proof.
  induction fs as [|h r IH]; intros Hnd f g p q Hf Hg Hp Hq Heq; [destruct Hf|].
  assert (Hin : forall x px, In x r ->
                  json_schema_extra (snd (fst x)) = Some px ->
                  In (typeName px) (wire_names r)).
  { intros x px Hx Hpx. unfold wire_names. apply in_flat_map.
    exists x. split; [exact Hx|]. rewrite Hpx. left. reflexivity. }
  assert (Hr : NoDup (wire_names r)).
  { simpl in Hnd. destruct (json_schema_extra (snd (fst h)));
      simpl in Hnd; [inversion Hnd|]; assumption. }
  assert (Hhead : forall x ph px, In x r ->
                    json_schema_extra (snd (fst h)) = Some ph ->
                    json_schema_extra (snd (fst x)) = Some px ->
                    typeName ph <> typeName px).
  { intros x ph px Hx Hph Hpx Hsame. simpl in Hnd. rewrite Hph in Hnd.
    simpl in Hnd. inversion Hnd as [|? ? Hnotin _]; subst.
    apply Hnotin. rewrite Hsame. apply (Hin x px Hx Hpx). }
  destruct Hf as [Hf|Hf], Hg as [Hg|Hg].
  - congruence.
  - subst h. elim (Hhead g p q Hg Hp Hq Heq).
  - subst h. elim (Hhead f q p Hf Hq Hp (eq_sym Heq)).
  - exact (IH Hr f g p q Hf Hg Hp Hq Heq).
Qed.

(** ** Serialization to the wire format *)


Section Serialization.
Variable model_str : DataverseBase -> string.

Lemma dataverse_dict_unfold self :
  dataverse_dict model_str self
  = (json_obj <- json_obj_of model_str self ;;
     Ok (wrap_block (_metadatablock_name self) json_obj)).
Proof. reflexivity. Qed.

Lemma json_obj_of_collect self :
  json_obj_of model_str self
  = (es <- mappings_in_order model_str self ;; Ok (dict_update_all es [])).
Proof. unfold json_obj_of, mappings_in_order. apply fields_loop_collect. Qed.

(** What a successful [dataverse_dict] is made of. *)
Lemma dataverse_dict_ok self out :
  dataverse_dict model_str self = Ok out ->
  exists es,
    mappings_in_order model_str self = Ok es
    /\ json_obj_of model_str self = Ok (dict_update_all es [])
    /\ out = wrap_block (_metadatablock_name self) (dict_update_all es []).
Proof.
  rewrite dataverse_dict_unfold, json_obj_of_collect.
  destruct (mappings_in_order model_str self) as [es|err];
    cbn [bind]; [|discriminate].
  intros H. inversion H. exists es. auto.
Qed.




End Serialization.

Ltac distinct_names :=
  repeat (constructor; [simpl; intuition discriminate|]); constructor.





(** ** The generic dict export *)

Lemma eq_empty_dict_spec v : eq_empty_dict v = true <-> v = VDict [].
Proof.
  destruct v as [| | | | | |l|d|m]; simpl; try (split; discriminate).
  destruct d; split; try discriminate; reflexivity.
Qed.

Lemma eq_empty_list_spec v : eq_empty_list v = true <-> v = VList [].
Proof.
  destruct v as [| | | | | |l|d|m]; simpl; try (split; discriminate).
  destruct l; split; try discriminate; reflexivity.
Qed.

Lemma model_dump_none exclude_none x :
  model_dump exclude_none x = VNone -> x = VNone.
Proof. destruct x; simpl; intros H; try discriminate H; reflexivity. Qed.

Lemma dump_fields_origin exclude_none dump fs out k v :
  In (k, v) (dump_fields exclude_none dump fs out) ->
  In (k, v) out
  \/ exists attr field x,
       In (attr, field, x) fs
       /\ (exclude_none = true -> x <> VNone)
       /\ k = key_by_alias attr field /\ v = dump x.
Proof.
  revert out. induction fs as [|[[attr field] x] r IH]; intros out; simpl.
  - auto.
  - assert (Hrest : forall out',
              In (k, v) (dump_fields exclude_none dump r out') ->
              In (k, v) out'
              \/ exists attr0 field0 x0,
                   ((attr, field, x) = (attr0, field0, x0)
                    \/ In (attr0, field0, x0) r)
                   /\ (exclude_none = true -> x0 <> VNone)
                   /\ k = key_by_alias attr0 field0 /\ v = dump x0).
    { intros out' H. apply IH in H as [H|(a & f & y & Hin & Hrest)];
        [left; exact H|right].
      exists a, f, y. split; [right; exact Hin|exact Hrest]. }
    destruct (exclude_none && is_none x) eqn:E; intros H.
    + apply Hrest, H.
    + apply Hrest in H as [H|H]; [|right; exact H].
      apply dict_set_items in H as [H|H]; [right|left; exact H].
      inversion H; subst. exists attr, field, x.
      split; [left; reflexivity|]. split; [|auto].
      intros He Hx. subst. discriminate E.
Qed.

(** C6 (as amended).  [dict(exclude_none=e)] is pydantic's dump by alias of
    the object's attributes from which exactly the top-level entries whose
    dumped value is an empty mapping or an empty list are removed; there is
    no wire wrapping.  With [exclude_none=True] every entry of the dump of
    an object, nested or not, is the dump of a non-null attribute and is
    itself non-null; a nested object is dumped to the mapping of its own
    attributes, none being removed for being an empty list. *)
Theorem dict_export_filters_top_level :
  forall (self : DataverseBase) (exclude_none : bool),
    (forall k v,
        In (k, v) (dict_ exclude_none self)
        <-> In (k, v) (dump_fields exclude_none (model_dump exclude_none)
                                   (model_fields self) [])
            /\ v <> VDict [] /\ v <> VList [])
    /\ (forall m k v,
           In (k, v) (dump_fields true (model_dump true) (model_fields m) []) ->
           v <> VNone
           /\ exists attr field x,
                In (attr, field, x) (model_fields m)
                /\ x <> VNone
                /\ k = key_by_alias attr field
                /\ v = model_dump true x)
    /\ (forall m,
           model_dump exclude_none (VModel m)
           = VDict (dump_fields exclude_none (model_dump exclude_none)
                                (model_fields m) [])).
Proof.
  intros self exclude_none. repeat split.
  - unfold dict_ in H. apply filter_In in H. tauto.
  - unfold dict_ in H. apply filter_In in H as [_ H]. cbn [snd] in H.
    intros Hv. subst v. discriminate H.
  - unfold dict_ in H. apply filter_In in H as [_ H]. cbn [snd] in H.
    intros Hv. subst v. discriminate H.
  - intros (Hin & Hd & Hl). unfold dict_. apply filter_In.
    split; [exact Hin|]. cbn [snd].
    destruct (eq_empty_dict v) eqn:Ed;
      [apply eq_empty_dict_spec in Ed; contradiction|].
    destruct (eq_empty_list v) eqn:El;
      [apply eq_empty_list_spec in El; contradiction|].
    reflexivity.
  - apply dump_fields_origin in H as [[]|(a & f & x & Hin & Hx & Hk & Hv)].
    intros Hnone. subst v. apply model_dump_none in Hnone.
    exact (Hx eq_refl Hnone).
  - apply dump_fields_origin in H as [[]|(a & f & x & Hin & Hx & Hk & Hv)].
    exists a, f, x. auto.
Qed.

(** C6, as stated, fails.  Without [exclude_none] a null-valued attribute
    stays in the export; with it, the empty list held by a nested object
    stays; and a nested object that the wire serialization treats as empty
    (its own dict form is empty) stays as a non-empty mapping. *)
Lemma dict_export_keeps_null_and_nested_empty :
  dict_ false (contact_block VNone (VStr "Jane") (VList []))
  = [("title", VNone);
     ("contact", VDict [("name", VStr "Jane"); ("affiliation", VList [])])]
  /\ dict_ true (contact_block VNone (VStr "Jane") (VList []))
     = [("contact", VDict [("name", VStr "Jane"); ("affiliation", VList [])])]
  /\ is_empty (author VNone (VList [])) = true
  /\ dict_ true (contact_block VNone VNone (VList []))
     = [("contact", VDict [("affiliation", VList [])])].
Proof. repeat split. Qed.

(** ** [dataverse_dict] returns on well-typed models *)

Section ValueInduction.
Variable P : value -> Prop.
Hypothesis HNone : P VNone.
Hypothesis HBool : forall b, P (VBool b).
Hypothesis HInt : forall z, P (VInt z).
Hypothesis HStr : forall s, P (VStr s).
Hypothesis HDate : forall y m d, P (VDate y m d).
Hypothesis HEnum : forall name v, P v -> P (VEnum name v).
Hypothesis HList : forall l, Forall P l -> P (VList l).
Hypothesis HDict : forall d, Forall (fun kv => P (snd kv)) d -> P (VDict d).
Hypothesis HModel :
  forall m, Forall (fun f => P (snd f)) (model_fields m) -> P (VModel m).

Fixpoint value_ind_nested (v : value) : P v :=
  match v with
  | VNone => HNone
  | VBool b => HBool b
  | VInt z => HInt z
  | VStr s => HStr s
  | VDate y m d => HDate y m d
  | VEnum name x => HEnum name x (value_ind_nested x)
  | VList l =>
      HList l ((fix go (l : list value) : Forall P l :=
                match l with
                | [] => Forall_nil P
                | x :: r => Forall_cons x (value_ind_nested x) (go r)
                end) l)
  | VDict d =>
      HDict d ((fix go (d : pydict) : Forall (fun kv => P (snd kv)) d :=
                  match d with
                  | [] => Forall_nil _
                  | (k, x) :: r =>
                      Forall_cons (k, x) (value_ind_nested x) (go r)
                  end) d)
  | VModel m =>
      HModel m
        (match m as m0
               return Forall (fun f => P (snd f)) (model_fields m0) with
         | Build_BaseModel _ c b fs =>
             (fix go (fs : list (string * FieldInfo * value))
                : Forall (fun f => P (snd f)) fs :=
                match fs with
                | [] => Forall_nil _
                | (a, f, x) :: r =>
                    Forall_cons (a, f, x) (value_ind_nested x) (go r)
                end) fs
         end)
  end.
End ValueInduction.

Section Totality.
Variable model_str : DataverseBase -> string.

Let returns (v : value) : Prop :=
  exists out, dataverse_dict_of model_str v = Ok out.

Lemma each_dataverse_dict_returns l :
  Forall (fun x => serializable x = true -> returns x) l ->
  forallb serializable l = true ->
  exists outs,
    each_dataverse_dict (dataverse_dict_of model_str) l = Ok outs.
Proof.
  induction 1 as [|x r Hx Hr IH]; simpl; intros Hall.
  - eexists; reflexivity.
  - apply andb_prop in Hall as [Hsx Hsr].
    destruct (Hx Hsx) as [o Ho]. destruct (IH Hsr) as [os Hos].
    rewrite Ho, Hos. simpl. eexists; reflexivity.
Qed.

Lemma fields_loop_returns fs :
  Forall (fun f =>
            (serializable (snd f) = true -> returns (snd f))
            /\ forall l, snd f = VList l -> forallb serializable l = true ->
                 exists outs,
                   each_dataverse_dict (dataverse_dict_of model_str) l
                   = Ok outs) fs ->
  forallb (attr_ok serializable) fs = true ->
  forall json_obj,
  exists out,
    fields_loop model_str (dataverse_dict_of model_str) fs json_obj = Ok out.
Proof.
  induction 1 as [|[[attr field] x] r [Hx Hl] Hr IH];
    intros Hall json_obj; cbn [fields_loop].
  - eexists; reflexivity.
  - cbn [forallb] in Hall. apply andb_prop in Hall as [Hok Hrest].
    assert (Hstep : exists step,
               field_step model_str (dataverse_dict_of model_str)
                          (attr, field, x) = Ok step).
    { unfold field_step. unfold attr_ok in Hok. cbn [snd] in Hx, Hl.
      destruct (is_helper_name attr); [eexists; reflexivity|].
      destruct (is_empty x); [eexists; reflexivity|].
      cbn [orb] in Hok.
      destruct (json_schema_extra field) as [p|]; [|discriminate].
      destruct (String.eqb (typeClass p) "compound").
      - unfold compound_ok in Hok. unfold process_compound.
        destruct x as [| | | | | |l|d|m];
          try (destruct (Hx Hok) as [o Ho]; rewrite Ho;
               eexists; reflexivity).
        destruct (Hl l eq_refl Hok) as [os Hos]. rewrite Hos.
        eexists; reflexivity.
      - eexists; reflexivity. }
    destruct Hstep as [step Hstep]. rewrite Hstep. cbn [bind].
    destruct step as [[k e]|]; apply (IH Hrest).
Qed.

(** X3.  Serialization of a well-typed model raises no exception: when
    every attribute that is serialized carries a descriptor and every
    compound attribute holds a model or a list of models, recursively,
    [dataverse_dict] returns a value. *)
Theorem dataverse_dict_returns :
  forall v, serializable v = true -> returns v.
Proof.
  intros v.
  cut ((serializable v = true -> returns v)
       /\ forall l, v = VList l -> forallb serializable l = true ->
            exists outs,
              each_dataverse_dict (dataverse_dict_of model_str) l = Ok outs).
  { tauto. }
  induction v using value_ind_nested;
    try (split; [discriminate|intros l' Hl'; discriminate Hl']).
  - split; [discriminate|]. intros l' Hl' Hall. inversion Hl'; subst l'.
    apply each_dataverse_dict_returns; [|exact Hall].
    eapply Forall_impl; [|exact H]. intros x [Hx _]. exact Hx.
  - split; [|intros l' Hl'; discriminate Hl'].
    intros Hs. cbn [serializable] in Hs. unfold returns.
    cbn [dataverse_dict_of].
    destruct (fields_loop_returns (model_fields m) H Hs []) as [o Ho].
    rewrite Ho. cbn [bind]. eexists; reflexivity.
Qed.
End Totality.

(** ** Directory ingestion *)

(** *** [replace] and [normpath] on a path below the root *)

Lemma replace_from_skip old new k s :
  PyStr.replace_from old new k s
  = PyStr.replace_from old new 0 (PyStr.drop k s).
Proof.
  revert k. induction s as [|c r IH]; intros [|k]; try reflexivity.
  simpl. apply IH.
Qed.

Lemma drop_app_length a b : PyStr.drop (String.length a) (a ++ b) = b.
Proof. induction a as [|c r IH]; [destruct b; reflexivity|exact IH]. Qed.

Lemma replace_leading_occurrence old rest :
  old <> "" ->
  PyStr.replace old "" (old ++ rest) = PyStr.replace old "" rest.
Proof.
  destruct old as [|c o]; [congruence|]. intros _.
  unfold PyStr.replace.
  change ((String c o ++ rest)) with (String c (o ++ rest)).
  cbn [PyStr.replace_from].
  change (String c (o ++ rest)) with (String c o ++ rest).
  rewrite prefix_app.
  replace (String.length (String c o) - 1) with (String.length o)
    by (cbn [String.length]; lia).
  change ("" ++ PyStr.replace_from (String c o) "" (String.length o) (o ++ rest))
    with (PyStr.replace_from (String c o) "" (String.length o) (o ++ rest)).
  rewrite replace_from_skip, drop_app_length. reflexivity.
Qed.

Lemma replace_absent old new s :
  PyStr.contains old s = false -> PyStr.replace old new s = s.
Proof.
  unfold PyStr.replace. induction s as [|c r IH]; [reflexivity|].
  cbn [PyStr.contains PyStr.replace_from]. intros H.
  apply orb_false_elim in H as [Hp Hr].
  rewrite Hp, (IH Hr). reflexivity.
Qed.

Lemma plain_component_spec c :
  plain_component c = true ->
  String.eqb c "" = false /\ String.eqb c "." = false
  /\ String.eqb c ".." = false /\ PyStr.has_char "/" c = false.
Proof.
  unfold plain_component. intros H.
  repeat (apply andb_prop in H as [H ?]).
  repeat split; apply negb_true_iff; assumption.
Qed.

Lemma norm_steps_plain comps acc :
  forallb plain_component comps = true ->
  fold_left (OsPath.norm_step 0) comps acc = (rev comps ++ acc)%list.
Proof.
  revert acc. induction comps as [|c r IH]; intros acc H; [reflexivity|].
  cbn [forallb] in H. apply andb_prop in H as [Hc Hr].
  cbn [fold_left rev]. rewrite (IH _ Hr), <- app_assoc.
  apply plain_component_spec in Hc as (He & Hd & Hdd & _).
  unfold OsPath.norm_step. rewrite He, Hd, Hdd. reflexivity.
Qed.

Lemma join_plain_shape c r :
  plain_component c = true ->
  exists a s, PyStr.join "/" (c :: r) = String a s /\ a <> "/"%char.
Proof.
  intros H. apply plain_component_spec in H as (He & _ & _ & Hs).
  destruct c as [|a c']; [discriminate He|].
  cbn [PyStr.has_char] in Hs. apply orb_false_elim in Hs as [Ha _].
  apply Ascii.eqb_neq in Ha.
  destruct r; cbn [PyStr.join append]; eexists _, _; split;
    try reflexivity; assumption.
Qed.

Lemma forallb_plain_no_sep comps :
  forallb plain_component comps = true ->
  Forall (fun s => PyStr.has_char "/" s = false) comps.
Proof.
  intros H. apply Forall_forall. intros c Hc.
  rewrite forallb_forall in H.
  apply (plain_component_spec c (H c Hc)).
Qed.

Lemma normpath_plain comps :
  comps <> [] ->
  forallb plain_component comps = true ->
  OsPath.normpath (PyStr.join "/" comps) = PyStr.join "/" comps.
Proof.
  intros Hne H. destruct comps as [|c r]; [congruence|].
  assert (Hc : plain_component c = true)
    by (cbn [forallb] in H; apply andb_prop in H; tauto).
  destruct (join_plain_shape c r Hc) as (a & s & Hj & Ha).
  assert (Hstart : PyStr.startswith (PyStr.join "/" (c :: r)) OsPath.sep
                   = false).
  { rewrite Hj. unfold PyStr.startswith, OsPath.sep. cbn [String.prefix].
    destruct (ascii_dec "/" a); [congruence|reflexivity]. }
  assert (Hnonempty : String.eqb (PyStr.join "/" (c :: r)) "" = false)
    by (rewrite Hj; reflexivity).
  unfold OsPath.normpath. rewrite Hnonempty, Hstart. cbv zeta.
  rewrite (split_join "/" (c :: r) Hne (forallb_plain_no_sep _ H)).
  rewrite (norm_steps_plain (c :: r) [] H), app_nil_r, rev_involutive.
  cbn [OsPath.repeat_sep append]. unfold OsPath.sep.
  rewrite Hnonempty. reflexivity.
Qed.

(** Below the root, when the root prefix does not occur again, the list
    [dirs] of [_has_ignore_dirs] is the list of components after the
    root. *)
Lemma ignore_dirs_below_root dirpath comps :
  comps <> [] ->
  forallb plain_component comps = true ->
  PyStr.contains (dirpath ++ "/") (PyStr.join "/" comps) = false ->
  ignore_dirs (dirpath ++ "/" ++ PyStr.join "/" comps) dirpath = comps.
Proof.
  intros Hne Hplain Habsent. unfold ignore_dirs, OsPath.sep.
  assert (Happ : dirpath ++ "/" ++ PyStr.join "/" comps
                 = (dirpath ++ "/") ++ PyStr.join "/" comps).
  { clear. induction dirpath as [|c r IH]; [reflexivity|].
    simpl. f_equal. exact IH. }
  rewrite Happ, replace_leading_occurrence
    by (destruct dirpath; discriminate).
  rewrite (replace_absent _ _ _ Habsent).
  rewrite (normpath_plain comps Hne Hplain).
  apply split_join; [exact Hne|apply forallb_plain_no_sep; exact Hplain].
Qed.

(** *** The two tests and the loops *)

Lemma has_ignore_dirs_intro path dirpath ignores ignore dir :
  In ignore ignores -> ignore <> "" ->
  In dir (ignore_dirs path dirpath) ->
  PyStr.contains (PyStr.replace "/" "" ignore) dir = true ->
  _has_ignore_dirs path dirpath ignores = true.
Proof.
  intros Hig Hne Hdir Hc. unfold _has_ignore_dirs.
  apply existsb_exists. exists true. split; [|reflexivity].
  apply in_flat_map. exists ignore. split; [exact Hig|].
  apply in_flat_map. exists dir. split; [exact Hdir|].
  destruct ignore as [|c r]; [congruence|].
  cbn [String.length Nat.ltb Nat.leb]. rewrite Hc. left. reflexivity.
Qed.

Lemma ingest_walk_app dirpath dv include_hidden ignores pre post self :
  ingest_walk dirpath dv include_hidden ignores (pre ++ post)%list self
  = match ingest_walk dirpath dv include_hidden ignores pre self with
    | (self', Ok _) =>
        ingest_walk dirpath dv include_hidden ignores post self'
    | (self', Raise e) => (self', Raise e)
    end.
Proof.
  revert self. induction pre as [|[path fnames] r IH]; intros self.
  - reflexivity.
  - cbn [app ingest_walk].
    destruct (_has_hidden_dir path dirpath && negb include_hidden);
      [apply IH|].
    destruct (_has_ignore_dirs path dirpath ignores); [apply IH|].
    destruct (ingest_files dirpath dv path fnames self) as [self' [u|e]];
      [apply IH|reflexivity].
Qed.

Lemma ingest_files_app dirpath dv path pre post self :
  ingest_files dirpath dv path (pre ++ post)%list self
  = match ingest_files dirpath dv path pre self with
    | (self', Ok _) => ingest_files dirpath dv path post self'
    | (self', Raise e) => (self', Raise e)
    end.
Proof.
  revert self. induction pre as [|file r IH]; intros self.
  - reflexivity.
  - cbn [app ingest_files].
    destruct (PyStr.startswith file "."); [apply IH|].
    destruct (ingest_file dirpath dv path file self) as [self' [u|e]];
      [apply IH|reflexivity].
Qed.

(** A directory for which [_has_ignore_dirs] holds contributes nothing,
    whatever [include_hidden] is. *)
Lemma ignored_directory_skipped dirpath dv include_hidden ignores
      pre path fnames post self :
  _has_ignore_dirs path dirpath ignores = true ->
  ingest_walk dirpath dv include_hidden ignores
              (pre ++ (path, fnames) :: post)%list self
  = ingest_walk dirpath dv include_hidden ignores (pre ++ post)%list self.
Proof.
  intros H. rewrite !ingest_walk_app.
  destruct (ingest_walk dirpath dv include_hidden ignores pre self)
    as [self' [u|e]]; [|reflexivity].
  cbn [ingest_walk]. rewrite H.
  destruct (_has_hidden_dir path dirpath && negb include_hidden); reflexivity.
Qed.

(** C9 (as amended).  During directory ingestion, (1) a walked directory
    below the root, given by its plain components after the root in a
    path where the root prefix does not occur again, is skipped with all
    its files as soon as one of these components contains a non-empty
    entry of [ignores] (taken with its slashes removed), whatever
    [include_hidden] is: the ingestion gives the same dataset and outcome
    as without that directory; (2) in any directory that is not skipped,
    a file whose name starts with a dot is skipped, [include_hidden]
    playing no part. *)
Theorem ignored_directories_and_dot_files_skipped :
  (forall dirpath dv include_hidden ignores comps ignore comp
          pre fnames post self,
      comps <> [] ->
      forallb plain_component comps = true ->
      PyStr.contains (dirpath ++ "/") (PyStr.join "/" comps) = false ->
      In ignore ignores -> ignore <> "" ->
      In comp comps ->
      PyStr.contains (PyStr.replace "/" "" ignore) comp = true ->
      ingest_walk dirpath dv include_hidden ignores
        (pre ++ ((dirpath ++ "/" ++ PyStr.join "/" comps)%string, fnames)
             :: post)%list
        self
      = ingest_walk dirpath dv include_hidden ignores (pre ++ post)%list self)
  /\ (forall dirpath dv path file pre post self,
         PyStr.startswith file "." = true ->
         ingest_files dirpath dv path (pre ++ file :: post)%list self
         = ingest_files dirpath dv path (pre ++ post)%list self).
Proof.
  split.
  - intros dirpath dv include_hidden ignores comps ignore comp
           pre fnames post self Hne Hplain Habsent Hig Hnonempty Hcomp Hc.
    apply ignored_directory_skipped.
    apply (has_ignore_dirs_intro _ _ _ ignore comp Hig Hnonempty);
      [|exact Hc].
    rewrite (ignore_dirs_below_root dirpath comps Hne Hplain Habsent).
    exact Hcomp.
  - intros dirpath dv path file pre post self Hdot.
    rewrite !ingest_files_app.
    destruct (ingest_files dirpath dv path pre self) as [self' [u|e]];
      [|reflexivity].
    cbn [ingest_files]. rewrite Hdot. reflexivity.
Qed.

Lemma ignored_directories_and_dot_files_skipped_witness :
  ["sub"] <> []
  /\ forallb plain_component ["sub"] = true
  /\ PyStr.contains ("root" ++ "/") (PyStr.join "/" ["sub"]) = false
  /\ In "sub/" ["sub/"] /\ "sub/" <> ""
  /\ In "sub" ["sub"]
  /\ PyStr.contains (PyStr.replace "/" "" "sub/") "sub" = true
  /\ PyStr.startswith ".secret" "." = true
  /\ ingest_walk "root" "" true ["sub/"]
       ([("root", ["a.txt"])]
          ++ (("root" ++ "/" ++ PyStr.join "/" ["sub"])%string, ["b.txt"])
          :: [])%list empty_dataset
     = ingest_walk "root" "" true ["sub/"]
         ([("root", ["a.txt"])] ++ [])%list empty_dataset
  /\ ingest_files "root" "" "root" (["a.txt"] ++ ".secret" :: [])%list
       empty_dataset
     = ingest_files "root" "" "root" (["a.txt"] ++ [])%list empty_dataset.
Proof.
  assert (H1 : ["sub"] <> []) by discriminate.
  assert (H2 : In "sub/" ["sub/"]) by (left; reflexivity).
  assert (H3 : "sub/" <> "") by discriminate.
  assert (H4 : In "sub" ["sub"]) by (left; reflexivity).
  do 8 (split; [first [assumption | reflexivity]|]).
  split.
  - exact (proj1 ignored_directories_and_dot_files_skipped
             "root" "" true ["sub/"] ["sub"] "sub/" "sub"
             [("root", ["a.txt"])] ["b.txt"] [] empty_dataset
             H1 eq_refl eq_refl H2 H3 H4 eq_refl).
  - exact (proj2 ignored_directories_and_dot_files_skipped
             "root" "" "root" ".secret" ["a.txt"] [] empty_dataset eq_refl).
Defined.

(** C9, as stated, fails: the empty string is an entry of [ignores] and
    a substring of the component "sub", and the file below "root/sub" is
    ingested all the same. *)
Lemma empty_ignore_pattern_skips_nothing :
  In "" [""]
  /\ In "sub" (PyStr.split "/" "root/sub")
  /\ PyStr.contains "" "sub" = true
  /\ _has_ignore_dirs "root/sub" "root" [""] = false
  /\ map local_path
         (files (fst (add_directory sample_fs empty_dataset "root" "" true [""])))
     = ["root/a.txt"; "root/sub/b.txt"].
Proof.
  split; [left; reflexivity|]. split; [right; left; reflexivity|].
  repeat split.
Qed.

(** The root prefix is removed with [replace], hence wherever it occurs:
    below the root "a", the directory "a/ba/c" has the component "ba",
    which the entry "ba" matches, and the test answers [False]. *)
Lemma root_prefix_removed_everywhere :
  In "ba" (PyStr.split "/" "ba/c")
  /\ ignore_dirs "a/ba/c" "a" = ["bc"]
  /\ _has_ignore_dirs "a/ba/c" "a" ["ba"] = false
  /\ _has_ignore_dirs "a/ba" "a" ["ba"] = true.
Proof. split; [left; reflexivity|]. repeat split. Qed.

(** The same with the root "data" and the entry "metadata": removing
    "data/" from "data/metadata/x" leaves "metax", so the directory
    below "metadata" is not skipped, while "data/metadata" itself is. *)
Lemma root_prefix_inside_component :
  PyStr.replace "data/" "" "data/metadata/x" = "metax"
  /\ _has_ignore_dirs "data/metadata/x" "data" ["metadata"] = false
  /\ _has_ignore_dirs "data/metadata" "data" ["metadata"] = true
  /\ map local_path
         (files (fst (ingest_walk "data" "" true ["metadata"]
                        [("data/metadata", ["m.txt"]);
                         ("data/metadata/x", ["secret.txt"])]
                        empty_dataset)))
     = ["data/metadata/x/secret.txt"].
Proof. repeat split. Qed.

(** File names are not matched against [ignores]: only the components of
    the walked directory are. *)
Lemma file_names_not_matched :
  PyStr.contains ".txt" "a.txt" = true
  /\ map local_path
         (files (fst (add_directory sample_fs empty_dataset "root" "" true
                                    [".txt"])))
     = ["root/a.txt"; "root/sub/b.txt"].
Proof. repeat split. Qed.

Lemma dict_export_filters_top_level_witness :
  In ("contact", VDict [("name", VStr "Jane"); ("affiliation", VList [])])
     (dump_fields true (model_dump true)
        (model_fields (contact_block VNone (VStr "Jane") (VList []))) [])
  /\ VDict [("name", VStr "Jane"); ("affiliation", VList [])] <> VNone.
Proof.
  assert (H : In ("contact",
                  VDict [("name", VStr "Jane"); ("affiliation", VList [])])
                 (dump_fields true (model_dump true)
                    (model_fields (contact_block VNone (VStr "Jane") (VList [])))
                    []))
    by (left; reflexivity).
  split; [exact H|].
  exact (proj1 (proj1 (proj2 (dict_export_filters_top_level
                                (contact_block VNone (VStr "Jane") (VList []))
                                true))
                  (contact_block VNone (VStr "Jane") (VList []))
                  "contact" _ H)).
Defined.

(* ================================================================== *)
(** * Further properties of the code                                   *)
(* ================================================================== *)

(** ** Key transposition *)

Lemma has_char_app c a b :
  PyStr.has_char c (a ++ b) = PyStr.has_char c a || PyStr.has_char c b.
Proof.
  induction a as [|x r IH]; [reflexivity|].
  cbn [append PyStr.has_char]. rewrite IH. apply orb_assoc.
Qed.

Lemma split_segments_without_sep sep s :
  Forall (fun x => PyStr.has_char sep x = false) (PyStr.split sep s).
Proof.
  induction s as [|c r IH]; cbn [PyStr.split].
  - repeat constructor.
  - destruct (Ascii.eqb c sep) eqn:E.
    + constructor; [reflexivity|exact IH].
    + destruct (PyStr.split sep r) as [|w ws]; [repeat constructor; cbn;
                                                 rewrite E; reflexivity|].
      inversion IH; subst. constructor; [|assumption].
      cbn [PyStr.has_char]. rewrite E. assumption.
Qed.

Lemma case_chars_keep_underscore_out c :
  Ascii.eqb c "_" = false ->
  Ascii.eqb (PyStr.upper_char c) "_" = false
  /\ Ascii.eqb (PyStr.lower_char c) "_" = false.
Proof.
  destruct c as [[] [] [] [] [] [] [] []]; intros H;
    first [discriminate H | split; reflexivity].
Qed.

Lemma capitalize_without_underscore x :
  PyStr.has_char "_" x = false ->
  PyStr.has_char "_" (PyStr.capitalize x) = false.
Proof.
  destruct x as [|c r]; [reflexivity|].
  cbn [PyStr.has_char PyStr.capitalize]. intros H.
  apply orb_false_elim in H as [Hc Hr].
  rewrite (proj1 (case_chars_keep_underscore_out c Hc)). cbn [orb].
  induction r as [|d r IH]; [reflexivity|].
  cbn [PyStr.has_char PyStr.map_chars] in *.
  apply orb_false_elim in Hr as [Hd Hr].
  rewrite (proj2 (case_chars_keep_underscore_out d Hd)). exact (IH Hr).
Qed.

Lemma join_empty_sep_cons x r :
  PyStr.join "" (x :: r) = x ++ PyStr.join "" r.
Proof.
  destruct r; cbn [PyStr.join append]; [|reflexivity].
  induction x as [|c x IH]; [reflexivity|]. cbn [append]. f_equal. exact IH.
Qed.

(** X1.  [_snake_to_camel] never returns the empty string (the empty word
    gives the underscore), and for a word whose segments between
    underscores are all non-empty, the result contains no underscore. *)
Theorem snake_to_camel_output_shape :
  forall word,
    _snake_to_camel word <> ""
    /\ (Forall (fun x => x <> "") (PyStr.split "_" word) ->
        PyStr.has_char "_" (_snake_to_camel word) = false).
Proof.
  intros word. unfold _snake_to_camel. split.
  - pose proof (split_nonnil "_" word) as Hne.
    destruct (PyStr.split "_" word) as [|x r]; [congruence|].
    cbn [map]. rewrite join_empty_sep_cons.
    pose proof (capitalize_or_underscore_nonempty x) as Hx.
    destruct (capitalize_or_underscore x); [congruence|discriminate].
  - pose proof (split_segments_without_sep "_" word) as Hsep.
    induction (PyStr.split "_" word) as [|x r IH]; [reflexivity|].
    intros Hall. inversion Hall; subst. inversion Hsep; subst.
    cbn [map]. rewrite join_empty_sep_cons, has_char_app, (IH H4 H2).
    rewrite capitalize_or_underscore_segment by assumption.
    rewrite capitalize_without_underscore by assumption. reflexivity.
Qed.

Lemma snake_to_camel_output_shape_witness :
  Forall (fun x => x <> "") (PyStr.split "_" "dataset_contact")
  /\ PyStr.has_char "_" (_snake_to_camel "dataset_contact") = false.
Proof.
  assert (H : Forall (fun x => x <> "") (PyStr.split "_" "dataset_contact"))
    by (repeat constructor; discriminate).
  split; [exact H|].
  exact (proj2 (snake_to_camel_output_shape "dataset_contact") H).
Defined.

Lemma camel_items_fresh dictionary nu_dict :
  NoDup (map (fun kv => _snake_to_camel (fst kv)) dictionary) ->
  (forall kv, In kv dictionary ->
              ~ In (_snake_to_camel (fst kv)) (dict_keys nu_dict)) ->
  camel_items keys_to_camel_value dictionary nu_dict
  = (nu_dict
       ++ map (fun kv => (_snake_to_camel (fst kv),
                          match snd kv with
                          | VDict _ => keys_to_camel_value (snd kv)
                          | _ => snd kv
                          end)) dictionary)%list.
Proof.
  revert nu_dict.
  induction dictionary as [|[k v] r IH]; intros nu_dict Hnd Hfresh.
  - cbn. rewrite app_nil_r. reflexivity.
  - cbn [camel_items map fst snd] in *.
    inversion Hnd as [|? ? Hk Hr]; subst.
    rewrite dict_set_fresh by (apply (Hfresh (k, v)); left; reflexivity).
    rewrite IH.
    + rewrite <- app_assoc. reflexivity.
    + exact Hr.
    + intros kv Hin Hkey. unfold dict_keys in Hkey.
      rewrite map_app in Hkey. apply in_app_or in Hkey as [Hkey|Hkey].
      * apply (Hfresh kv); [right; exact Hin|exact Hkey].
      * cbn in Hkey. destruct Hkey as [Hkey|[]]. apply Hk.
        rewrite Hkey. apply in_map_iff. exists kv. auto.
Qed.

(** X2.  When the transposed keys of a dict are pairwise distinct,
    [_keys_to_camel] keeps the entries in number and order, transposes
    each key and descends into the values that are dicts; every other
    value, a list of dicts included, is returned as it is. *)
Theorem keys_to_camel_entries :
  forall dictionary,
    NoDup (map (fun kv => _snake_to_camel (fst kv)) dictionary) ->
    _keys_to_camel dictionary
    = map (fun kv => (_snake_to_camel (fst kv),
                      match snd kv with
                      | VDict inner => VDict (_keys_to_camel inner)
                      | _ => snd kv
                      end)) dictionary.
Proof.
  intros dictionary Hnd. unfold _keys_to_camel at 1.
  rewrite camel_items_fresh by (auto; intros kv _ []).
  cbn [app]. apply map_ext. intros [k v]. cbn [fst snd].
  destruct v; reflexivity.
Qed.

Lemma keys_to_camel_entries_witness :
  NoDup (map (fun kv => _snake_to_camel (fst kv))
             [("this_is_sub", VDict [("another_snake", VStr "x")]);
              ("some_list", VList [VDict [("left_alone", VNone)]])])
  /\ _keys_to_camel
       [("this_is_sub", VDict [("another_snake", VStr "x")]);
        ("some_list", VList [VDict [("left_alone", VNone)]])]
     = [("ThisIsSub", VDict [("AnotherSnake", VStr "x")]);
        ("SomeList", VList [VDict [("left_alone", VNone)]])].
Proof.
  assert (H : NoDup (map (fun kv => _snake_to_camel (fst kv))
                 [("this_is_sub", VDict [("another_snake", VStr "x")]);
                  ("some_list", VList [VDict [("left_alone", VNone)]])]))
    by (vm_compute; distinct_names).
  split; [exact H|].
  exact (keys_to_camel_entries _ H).
Defined.

(** ** More on the wire serialization *)

Lemma dataverse_dict_returns_witness :
  serializable (VModel sample_citation) = true
  /\ exists out,
       dataverse_dict_of class_name_str (VModel sample_citation) = Ok out.
Proof.
  split; [reflexivity|].
  exact (dataverse_dict_returns class_name_str (VModel sample_citation)
           eq_refl).
Defined.

Section MoreSerialization.
Variable model_str : DataverseBase -> string.

Lemma skipped_attribute_not_collected self f p es k e :
  NoDup (wire_names (model_fields self)) ->
  In f (model_fields self) ->
  field_step model_str (dataverse_dict_of model_str) f = Ok None ->
  json_schema_extra (snd (fst f)) = Some p ->
  mappings_in_order model_str self = Ok es ->
  In (k, e) es -> k <> typeName p.
Proof.
  intros Hnd Hin Hskip Hp Hes Hke Hk.
  destruct (collect_steps_origin _ _ _ _ Hes _ Hke)
    as ([[attr' field'] v'] & Hin' & Hstep).
  pose proof Hstep as Hsome.
  apply field_step_some in Hsome as (_ & _ & p' & Hp' & Hk' & _).
  assert (E : (attr', field', v') = f).
  { apply (wire_names_inj _ Hnd _ _ p' p Hin' Hin Hp' Hp). congruence. }
  subst f. congruence.
Qed.

(** X4.  The helper test is a substring test: an attribute whose name
    contains "add_" or "_metadatablock_name" anywhere is never serialized,
    whatever it holds; with pairwise distinct wire names its wire name is
    not a key of the field mapping. *)
Theorem helper_named_attributes_skipped :
  forall self attr field v p out,
    NoDup (wire_names (model_fields self)) ->
    In (attr, field, v) (model_fields self) ->
    PyStr.contains "add_" attr = true
    \/ PyStr.contains "_metadatablock_name" attr = true ->
    json_schema_extra field = Some p ->
    dataverse_dict model_str self = Ok out ->
    exists json_obj,
      json_obj_of model_str self = Ok json_obj
      /\ out = wrap_block (_metadatablock_name self) json_obj
      /\ ~ In (typeName p) (dict_keys json_obj).
Proof.
  intros self attr field v p out Hnd Hin Hname Hp Hout.
  destruct (dataverse_dict_ok model_str self out Hout)
    as (es & Hes & Hjson & Hw).
  exists (dict_update_all es []). repeat split; [exact Hjson|exact Hw|].
  intros Hkey. apply dict_update_all_keys in Hkey as [Hkey|[]].
  apply in_map_iff in Hkey as ([k e] & Hk & Hke). cbn [fst] in Hk.
  apply (skipped_attribute_not_collected self (attr, field, v) p es k e
           Hnd Hin); auto.
  unfold field_step, is_helper_name. cbn [existsb].
  destruct Hname as [H|H]; rewrite H; [|rewrite orb_true_r]; reflexivity.
Qed.

Lemma each_dataverse_dict_raises l x :
  In x l -> not_a_model x = true ->
  exists e, each_dataverse_dict (dataverse_dict_of model_str) l = Raise e.
Proof.
  induction l as [|y r IH]; intros Hin Hx; [destruct Hin|].
  cbn [each_dataverse_dict].
  destruct (dataverse_dict_of model_str y) as [o|e] eqn:Hy;
    cbn [bind]; [|eexists; reflexivity].
  destruct Hin as [Hin|Hin].
  - subst y. destruct x; try discriminate Hy. discriminate Hx.
  - destruct (IH Hin Hx) as [e He]. rewrite He. eexists; reflexivity.
Qed.

Lemma failing_step_raises self f e :
  In f (model_fields self) ->
  field_step model_str (dataverse_dict_of model_str) f = Raise e ->
  exists e', dataverse_dict model_str self = Raise e'.
Proof.
  intros Hin Hstep. rewrite dataverse_dict_unfold, json_obj_of_collect.
  destruct (mappings_in_order model_str self) as [es|e'] eqn:Hes;
    cbn [bind]; [|eexists; reflexivity].
  destruct (collect_steps_member _ _ _ _ _ Hes Hin) as (step & Hs & _).
  congruence.
Qed.

(** X5.  [dataverse_dict] raises when an attribute that is neither a
    helper nor empty has no descriptor, and when an attribute of type
    class "compound" holds something that is not a model, or a list with
    an element that is not a model. *)
Theorem dataverse_dict_raises_on_ill_typed :
  forall self attr field v,
    In (attr, field, v) (model_fields self) ->
    is_helper_name attr = false ->
    is_empty v = false ->
    json_schema_extra field = None
    \/ (exists p,
           json_schema_extra field = Some p
           /\ typeClass p = "compound"
           /\ ((not_a_model v = true /\ forall l, v <> VList l)
               \/ exists l x, v = VList l /\ In x l /\ not_a_model x = true)) ->
    exists e, dataverse_dict model_str self = Raise e.
Proof.
  intros self attr field v Hin Hhelper Hne Hcase.
  assert (Hstep : exists e,
             field_step model_str (dataverse_dict_of model_str)
                        (attr, field, v) = Raise e).
  { unfold field_step. rewrite Hhelper, Hne.
    destruct Hcase as [Hnone|(p & Hp & Hclass & Hv)].
    - rewrite Hnone. eexists; reflexivity.
    - rewrite Hp, Hclass. cbn [String.eqb Ascii.eqb Bool.eqb andb].
      destruct Hv as [[Hnm Hnl]|(l & x & Hl & Hx & Hnm)].
      + destruct v; try discriminate Hnm;
          try (eexists; reflexivity).
        elim (Hnl l eq_refl).
      + subst v. unfold process_compound.
        destruct (each_dataverse_dict_raises l x Hx Hnm) as [e He].
        rewrite He. eexists; reflexivity. }
  destruct Hstep as [e He].
  exact (failing_step_raises self (attr, field, v) e Hin He).
Qed.

Lemma normalize_kind v :
  match normalize model_str v with
  | VList _ | VDict _ | VStr _ => True
  | _ => False
  end.
Proof. destruct v; cbn; try exact I. destruct (forallb is_enum l); exact I. Qed.

(** X6.  Every entry of the field mapping built by [dataverse_dict] stems
    from an attribute that is not a helper, is not empty and has a
    descriptor; it is stored under the descriptor's [typeName] and is the
    four-key mapping of that descriptor, whose [value] is a list, a dict
    or a string. *)
Theorem field_mapping_entries_shape :
  forall self json_obj k e,
    json_obj_of model_str self = Ok json_obj ->
    In (k, e) json_obj ->
    exists attr field v p v',
      In (attr, field, v) (model_fields self)
      /\ is_helper_name attr = false /\ is_empty v = false
      /\ json_schema_extra field = Some p
      /\ k = typeName p
      /\ e = field_mapping p v'
      /\ match v' with
         | VList _ | VDict _ | VStr _ => True
         | _ => False
         end.
Proof.
  intros self json_obj k e Hjson Hin.
  rewrite json_obj_of_collect in Hjson.
  destruct (mappings_in_order model_str self) as [es|err] eqn:Hes;
    cbn [bind] in Hjson; [|discriminate].
  inversion Hjson; subst json_obj. clear Hjson.
  apply dict_update_all_items in Hin as [Hin|[]].
  destruct (collect_steps_origin _ _ _ _ Hes _ Hin)
    as ([[attr field] v] & Hf & Hstep).
  exists attr, field, v. unfold field_step in Hstep.
  destruct (is_helper_name attr); [discriminate|].
  destruct (is_empty v); [discriminate|].
  destruct (json_schema_extra field) as [p|]; [|discriminate].
  destruct (if String.eqb (typeClass p) "compound"
            then process_compound (dataverse_dict_of model_str) v
            else Ok v) as [v1|err]; cbn [bind] in Hstep; [|discriminate].
  inversion Hstep; subst. exists p, (normalize model_str v1).
  repeat split; auto. apply normalize_kind.
Qed.

Lemma fields_loop_all_skipped rec fs json_obj :
  (forall attr field v, In (attr, field, v) fs ->
                        is_helper_name attr = true \/ is_empty v = true) ->
  fields_loop model_str rec fs json_obj = Ok json_obj.
Proof.
  induction fs as [|[[attr field] v] r IH]; intros H; [reflexivity|].
  cbn [fields_loop].
  assert (Hstep : field_step model_str rec (attr, field, v) = Ok None).
  { unfold field_step.
    destruct (H attr field v (or_introl eq_refl)) as [Hh|He].
    - rewrite Hh. reflexivity.
    - rewrite He. destruct (is_helper_name attr); reflexivity. }
  rewrite Hstep. cbn [bind]. apply IH.
  intros a f x Hin. apply (H a f x). right. exact Hin.
Qed.

(** X7.  An object all of whose attributes are helpers or empty
    serializes to the empty dict, block name or not: no wrapper is
    produced for it. *)
Theorem all_empty_object_serializes_to_empty_dict :
  forall self,
    (forall attr field v,
        In (attr, field, v) (model_fields self) ->
        is_helper_name attr = true \/ is_empty v = true) ->
    dataverse_dict model_str self = Ok (VDict []).
Proof.
  intros self H. rewrite dataverse_dict_unfold. unfold json_obj_of.
  rewrite (fields_loop_all_skipped _ _ [] H). cbn [bind].
  unfold wrap_block. destruct (_metadatablock_name self); reflexivity.
Qed.
End MoreSerialization.

Lemma helper_named_attributes_skipped_witness :
  NoDup (wire_names (model_fields address_block))
  /\ In ("address_add_on", descriptor "addOn" "primitive" false,
         VStr "2nd floor") (model_fields address_block)
  /\ PyStr.contains "add_" "address_add_on" = true
  /\ exists out,
       dataverse_dict class_name_str address_block = Ok out
       /\ exists json_obj,
            json_obj_of class_name_str address_block = Ok json_obj
            /\ out = wrap_block (_metadatablock_name address_block) json_obj
            /\ ~ In "addOn" (dict_keys json_obj).
Proof.
  assert (Hnd : NoDup (wire_names (model_fields address_block)))
    by (vm_compute; distinct_names).
  assert (Hin : In ("address_add_on", descriptor "addOn" "primitive" false,
                    VStr "2nd floor") (model_fields address_block))
    by (right; left; reflexivity).
  split; [exact Hnd|]. split; [exact Hin|]. split; [reflexivity|].
  eexists. split; [vm_compute; reflexivity|].
  exact (helper_named_attributes_skipped class_name_str address_block
           "address_add_on" (descriptor "addOn" "primitive" false)
           (VStr "2nd floor")
           {| typeName := "addOn"; typeClass := "primitive";
              multiple := false |}
           _ Hnd Hin (or_introl eq_refl) eq_refl eq_refl).
Defined.

Lemma dataverse_dict_raises_on_ill_typed_witness :
  In ("contact", descriptor "datasetContact" "compound" false, VStr "Jane")
     (model_fields ill_typed_block)
  /\ is_helper_name "contact" = false
  /\ is_empty (VStr "Jane") = false
  /\ exists e, dataverse_dict class_name_str ill_typed_block = Raise e.
Proof.
  assert (Hin : In ("contact", descriptor "datasetContact" "compound" false,
                    VStr "Jane") (model_fields ill_typed_block))
    by (left; reflexivity).
  split; [exact Hin|]. split; [reflexivity|]. split; [reflexivity|].
  apply (dataverse_dict_raises_on_ill_typed class_name_str ill_typed_block
           "contact" (descriptor "datasetContact" "compound" false)
           (VStr "Jane") Hin eq_refl eq_refl).
  right. eexists. split; [reflexivity|]. split; [reflexivity|].
  left. split; [reflexivity|]. intros l H. discriminate H.
Defined.

Lemma field_mapping_entries_shape_witness :
  exists json_obj e,
    json_obj_of class_name_str sample_notes = Ok json_obj
    /\ In ("noteText", e) json_obj
    /\ exists attr field v p v',
         In (attr, field, v) (model_fields sample_notes)
         /\ is_helper_name attr = false /\ is_empty v = false
         /\ json_schema_extra field = Some p
         /\ "noteText" = typeName p
         /\ e = field_mapping p v'
         /\ match v' with
            | VList _ | VDict _ | VStr _ => True
            | _ => False
            end.
Proof.
  eexists. eexists.
  assert (Hj : json_obj_of class_name_str sample_notes
               = Ok (match json_obj_of class_name_str sample_notes with
                     | Ok j => j
                     | Raise _ => []
                     end)) by reflexivity.
  vm_compute in Hj.
  split; [exact Hj|]. split; [left; reflexivity|].
  refine (field_mapping_entries_shape class_name_str sample_notes _ _ _ Hj _).
  left. reflexivity.
Defined.

Lemma all_empty_object_serializes_to_empty_dict_witness :
  (forall attr field v,
      In (attr, field, v) (model_fields (citation VNone [] [])) ->
      is_helper_name attr = true \/ is_empty v = true)
  /\ dataverse_dict class_name_str (citation VNone [] []) = Ok (VDict []).
Proof.
  assert (H : forall attr field v,
             In (attr, field, v) (model_fields (citation VNone [] [])) ->
             is_helper_name attr = true \/ is_empty v = true).
  { intros attr field v [Hin|[Hin|[Hin|[]]]]; inversion Hin; subst;
      right; reflexivity. }
  split; [exact H|].
  exact (all_empty_object_serializes_to_empty_dict class_name_str
           (citation VNone [] []) H).
Defined.

(** ** Registered blocks *)

Lemma dict_get_set_same k v d : dict_get k (dict_set k v d) = Some v.
Proof.
  induction d as [|[k' v'] r IH]; cbn [dict_set dict_get].
  - rewrite String.eqb_refl. reflexivity.
  - destruct (String.eqb k' k) eqn:E; cbn [dict_get].
    + rewrite String.eqb_refl. reflexivity.
    + rewrite E. exact IH.
Qed.

Lemma dict_get_set_other k k' v d :
  k' <> k -> dict_get k' (dict_set k v d) = dict_get k' d.
Proof.
  intros Hne. induction d as [|[k0 v0] r IH]; cbn [dict_set dict_get].
  - destruct (String.eqb k k') eqn:E; [|reflexivity].
    apply String.eqb_eq in E. congruence.
  - destruct (String.eqb k0 k) eqn:E; cbn [dict_get].
    + apply String.eqb_eq in E. subst k0.
      destruct (String.eqb k k') eqn:E'; [|reflexivity].
      apply String.eqb_eq in E'. congruence.
    + rewrite IH. reflexivity.
Qed.

Lemma dict_set_keys_present k v d :
  In k (dict_keys d) -> dict_keys (dict_set k v d) = dict_keys d.
Proof.
  induction d as [|[k' v'] r IH]; cbn [dict_set dict_keys map fst];
    [intros []|].
  destruct (String.eqb k' k) eqn:E; cbn [map fst].
  - apply String.eqb_eq in E. subst k'. reflexivity.
  - intros [H|H]; [apply String.eqb_neq in E; congruence|].
    unfold dict_keys in IH. rewrite (IH H). reflexivity.
Qed.

Lemma dict_set_keys_nodup k v d :
  NoDup (dict_keys d) -> NoDup (dict_keys (dict_set k v d)).
Proof.
  intros Hnd. destruct (in_dec string_dec k (dict_keys d)) as [Hin|Hnot].
  - rewrite dict_set_keys_present by assumption. exact Hnd.
  - rewrite dict_set_fresh by assumption. unfold dict_keys in *.
    rewrite map_app. cbn [map fst].
    apply NoDup_app; [exact Hnd|repeat constructor; intros []|].
    intros x Hx [Hk|[]]. subst x. exact (Hnot Hx).
Qed.

(** X8.  [add_metadatablock] on a model whose block name is not the name
    of a field of [Dataset] succeeds and stores the block under that
    name: looking the name up gives the block, every other name is looked
    up as before, files and identifier are untouched, and the invariant
    that keys are unique and that each block is stored under its own
    name is kept. *)
Theorem add_metadatablock_registers :
  forall self m name,
    _metadatablock_name m = Some name ->
    ~ In name dataset_field_names ->
    let after := fst (add_metadatablock self (VModel m)) in
    snd (add_metadatablock self (VModel m)) = Ok tt
    /\ dict_get name (metadatablocks after) = Some (VModel m)
    /\ (forall k, k <> name ->
                  dict_get k (metadatablocks after)
                  = dict_get k (metadatablocks self))
    /\ files after = files self /\ p_id after = p_id self
    /\ (blocks_registered_by_name (metadatablocks self) ->
        blocks_registered_by_name (metadatablocks after)).
Proof.
  intros self m name Hname _ after. subst after.
  unfold add_metadatablock. rewrite Hname. cbn [fst snd metadatablocks].
  split; [reflexivity|]. split; [apply dict_get_set_same|].
  split; [intros k Hk; apply dict_get_set_other; exact Hk|].
  split; [reflexivity|]. split; [reflexivity|].
  intros [Hnd Hnamed]. split; [apply dict_set_keys_nodup; exact Hnd|].
  intros k v Hin. apply dict_set_items in Hin as [Hin|Hin].
  - inversion Hin; subst. exists m. auto.
  - exact (Hnamed k v Hin).
Qed.

Lemma add_metadatablock_registers_witness :
  _metadatablock_name sample_citation = Some "citation"
  /\ ~ In "citation" dataset_field_names
  /\ dict_get "citation"
       (metadatablocks
          (fst (add_metadatablock geospatial_only (VModel sample_citation))))
     = Some (VModel sample_citation).
Proof.
  assert (H : ~ In "citation" dataset_field_names)
    by (cbn; intuition discriminate).
  split; [reflexivity|]. split; [exact H|].
  exact (proj1 (proj2 (add_metadatablock_registers geospatial_only
                         sample_citation "citation" eq_refl H))).
Defined.

(** X9.  When every block is stored under its own block name,
    [list_metadatablocks] prints exactly the registered names, in order,
    and raises nothing. *)
Theorem list_metadatablocks_prints_keys :
  forall self,
    blocks_registered_by_name (metadatablocks self) ->
    list_metadatablocks self = (dict_keys (metadatablocks self), Ok tt).
Proof.
  intros self [_ Hnamed]. unfold list_metadatablocks, dict_values, dict_keys.
  induction (metadatablocks self) as [|[k v] r IH]; [reflexivity|].
  cbn [map fst snd list_metadatablocks_lines].
  destruct (Hnamed k v (or_introl eq_refl)) as (m & Hv & Hm). subst v.
  rewrite Hm, IH; [reflexivity|].
  intros k' v' Hin. apply (Hnamed k' v'). right. exact Hin.
Qed.

Ltac registered_by_name :=
  split; [vm_compute; distinct_names|];
  intros k v Hin; cbn in Hin;
  repeat (destruct Hin as [Hin|Hin];
          [inversion Hin; subst; eexists; split; reflexivity|]);
  destruct Hin.

Lemma list_metadatablocks_prints_keys_witness :
  blocks_registered_by_name (metadatablocks two_blocks)
  /\ list_metadatablocks two_blocks = (["citation"; "contact"], Ok tt).
Proof.
  assert (H : blocks_registered_by_name (metadatablocks two_blocks))
    by registered_by_name.
  split; [exact H|].
  exact (list_metadatablocks_prints_keys two_blocks H).
Defined.

Section MergedBlocks.
Variable model_str : DataverseBase -> string.

Lemma merge_blocks_by_name items blocks out :
  NoDup (map fst items) ->
  (forall k v, In (k, v) items ->
               exists m, v = VModel m /\ _metadatablock_name m = Some k) ->
  (forall k, In k (map fst items) -> ~ In k (dict_keys blocks)) ->
  merge_blocks model_str (map snd items) blocks = Ok out ->
  out = (blocks ++ flat_map (wire_block_entry model_str) items)%list.
Proof.
  revert blocks.
  induction items as [|[k v] r IH]; intros blocks Hnd Hnamed Hfresh Hrun.
  - cbn in Hrun. inversion Hrun. cbn. rewrite app_nil_r. reflexivity.
  - cbn [map snd merge_blocks] in Hrun.
    destruct (Hnamed k v (or_introl eq_refl)) as (m & Hv & Hm). subst v.
    cbn [flat_map]. unfold wire_block_entry at 1. cbn [fst snd].
    change (dataverse_dict_of model_str (VModel m))
      with (dataverse_dict model_str m) in Hrun.
    rewrite dataverse_dict_unfold in Hrun.
    inversion Hnd as [|? ? Hk Hr]; subst.
    assert (Hnamed' : forall k' v', In (k', v') r ->
              exists m', v' = VModel m' /\ _metadatablock_name m' = Some k')
      by (intros k' v' Hin; apply (Hnamed k' v'); right; exact Hin).
    destruct (json_obj_of model_str m) as [json_obj|err];
      cbn [bind] in Hrun; [|discriminate].
    unfold wrap_block in Hrun. rewrite Hm in Hrun.
    destruct json_obj as [|f fs].
    + cbn in Hrun. apply (IH blocks Hr Hnamed'); [|exact Hrun].
      intros k' Hk'. apply Hfresh. right. exact Hk'.
    + cbn [dict_values map] in Hrun. cbn [dict_update_all fold_left fst snd]
        in Hrun.
      rewrite dict_set_fresh in Hrun by (apply Hfresh; left; reflexivity).
      apply (IH _ Hr Hnamed') in Hrun.
      * rewrite Hrun, <- app_assoc. reflexivity.
      * intros k' Hk' Hin. unfold dict_keys in Hin. rewrite map_app in Hin.
        apply in_app_or in Hin as [Hin|[Hin|[]]].
        -- apply (Hfresh k'); [right; exact Hk'|exact Hin].
        -- cbn in Hin. subst k'. exact (Hk Hk').
Qed.

(** X10.  For a dataset whose blocks are stored under their own block
    names, the dataverse dict is the envelope
    [{"datasetVersion": {"metadataBlocks": blocks}}] in which [blocks]
    has, in registration order, one entry [name: {"fields": [...]}] for
    each block that produced at least one field; a block without content
    leaves no key. *)
Theorem dataset_dataverse_dict_blocks :
  forall self out,
    blocks_registered_by_name (metadatablocks self) ->
    Dataset_dataverse_dict model_str self = Ok out ->
    out = VDict [("datasetVersion",
                  VDict [("metadataBlocks",
                          VDict (flat_map (wire_block_entry model_str)
                                          (metadatablocks self)))])].
Proof.
  intros self out [Hnd Hnamed] Hrun. unfold Dataset_dataverse_dict in Hrun.
  unfold dict_values in Hrun.
  destruct (merge_blocks model_str (map snd (metadatablocks self)) [])
    as [blocks|err] eqn:Hmerge; cbn [bind] in Hrun; [|discriminate].
  apply merge_blocks_by_name in Hmerge; auto.
  inversion Hrun. subst blocks. reflexivity.
Qed.
End MergedBlocks.

Lemma dataset_dataverse_dict_blocks_witness :
  blocks_registered_by_name (metadatablocks two_blocks)
  /\ exists out,
       Dataset_dataverse_dict class_name_str two_blocks = Ok out
       /\ out = VDict [("datasetVersion",
                        VDict [("metadataBlocks",
                                VDict (flat_map
                                         (wire_block_entry class_name_str)
                                         (metadatablocks two_blocks)))])]
       /\ dict_keys (flat_map (wire_block_entry class_name_str)
                              (metadatablocks two_blocks)) = ["citation"].
Proof.
  assert (H : blocks_registered_by_name (metadatablocks two_blocks))
    by registered_by_name.
  split; [exact H|].
  eexists. split; [vm_compute; reflexivity|]. split; [|reflexivity].
  exact (dataset_dataverse_dict_blocks class_name_str two_blocks _ H eq_refl).
Defined.

Lemma export_blocks_by_name items out res :
  NoDup (map fst items) ->
  (forall k, In k (map fst items) -> ~ In k (dict_keys out)) ->
  export_blocks items out = Ok res ->
  res = (out ++ flat_map export_block_entry items)%list.
Proof.
  revert out.
  induction items as [|[k v] r IH]; intros out Hnd Hfresh Hrun.
  - cbn in Hrun. inversion Hrun. cbn. rewrite app_nil_r. reflexivity.
  - inversion Hnd as [|? ? Hk Hr]; subst.
    cbn [export_blocks] in Hrun. cbn [flat_map].
    unfold export_block_entry at 1. cbn [fst snd].
    destruct v as [| | | | | |l|d|m]; try discriminate Hrun.
    destruct (dict_ true m) as [|e es] eqn:Hexp.
    + cbn [app]. apply (IH out Hr); [|exact Hrun].
      intros k' Hk'. apply Hfresh. right. exact Hk'.
    + rewrite dict_set_fresh in Hrun by (apply Hfresh; left; reflexivity).
      apply (IH _ Hr) in Hrun.
      * rewrite Hrun, <- app_assoc. reflexivity.
      * intros k' Hk' Hin. unfold dict_keys in Hin. rewrite map_app in Hin.
        apply in_app_or in Hin as [Hin|[Hin|[]]].
        -- apply (Hfresh k'); [right; exact Hk'|exact Hin].
        -- cbn in Hin. subst k'. exact (Hk Hk').
Qed.

(** X11.  The generic export of a dataset with unique block keys is the
    dict whose first key "metadatablocks" holds, in registration order,
    the null-excluded dict form of every block whose form is not empty
    (blocks with an empty form are left out), followed by "dataset_id"
    exactly when the identifier is set and is not the empty string. *)
Theorem dataset_dict_export :
  forall self out,
    NoDup (dict_keys (metadatablocks self)) ->
    Dataset_dict self = Ok out ->
    out = VDict (("metadatablocks",
                  VDict (flat_map export_block_entry (metadatablocks self)))
                   :: match p_id self with
                      | Some id => if String.eqb id "" then []
                                   else [("dataset_id", VStr id)]
                      | None => []
                      end).
Proof.
  intros self out Hnd Hrun. unfold Dataset_dict in Hrun.
  destruct (export_blocks (metadatablocks self) []) as [blocks|err] eqn:Hexp;
    cbn [bind] in Hrun; [|discriminate].
  apply export_blocks_by_name in Hexp; [|exact Hnd|intros k _ []].
  cbn [app] in Hexp. subst blocks. inversion Hrun.
  destruct (p_id self) as [id|]; [destruct (String.eqb id "")|]; reflexivity.
Qed.

Lemma dataset_dict_export_witness :
  NoDup (dict_keys (metadatablocks two_blocks))
  /\ Dataset_dict two_blocks
     = Ok (VDict [("metadatablocks",
                   VDict (flat_map export_block_entry
                                   (metadatablocks two_blocks)))])
  /\ dict_keys (flat_map export_block_entry (metadatablocks two_blocks))
     = ["citation"].
Proof.
  assert (H : NoDup (dict_keys (metadatablocks two_blocks)))
    by (vm_compute; distinct_names).
  split; [exact H|]. split; [|reflexivity].
  assert (Hrun : exists out, Dataset_dict two_blocks = Ok out)
    by (eexists; vm_compute; reflexivity).
  destruct Hrun as [out Hrun]. rewrite Hrun.
  rewrite (dataset_dict_export two_blocks out H Hrun). reflexivity.
Defined.

(** ** File entries: adding and replacing *)

Lemma option_eqb_eq a b : option_eqb a b = true <-> a = b.
Proof.
  destruct a, b; cbn; split; intros H; try discriminate; try reflexivity.
  - apply String.eqb_eq in H. congruence.
  - inversion H. apply String.eqb_refl.
Qed.

Lemma File_eqb_eq f g : File_eqb f g = true <-> f = g.
Proof.
  split.
  - unfold File_eqb. intros H.
    repeat (apply andb_prop in H as [H ?]).
    destruct f, g. cbn in *.
    repeat match goal with
           | E : String.eqb _ _ = true |- _ => apply String.eqb_eq in E
           | E : option_eqb _ _ = true |- _ => apply option_eqb_eq in E
           end.
    congruence.
  - intros ->. apply File_eqb_refl.
Qed.

Lemma file_in_spec file fs : file_in file fs = true <-> In file fs.
Proof.
  unfold file_in. rewrite existsb_exists. split.
  - intros (g & Hin & He). apply File_eqb_eq in He. congruence.
  - intros Hin. exists file. split; [exact Hin|apply File_eqb_refl].
Qed.

(** X12.  [add_file] raises [FileExistsError], leaving the dataset as it
    is, exactly when the file list already holds an entry with the same
    filename, local path, remote directory and description and no remote
    identifier; otherwise it appends that entry, whose filename is the
    base name of the local path, at the end of the list. *)
Theorem add_file_appends_or_raises :
  forall self local_path0 dv_dir0 description0,
    let file := new_file local_path0 dv_dir0 description0 in
    (In file (files self) ->
     add_file self local_path0 dv_dir0 description0
     = (self,
        Raise (FileExistsError "File has already been added to the dataset")))
    /\ (~ In file (files self) ->
        add_file self local_path0 dv_dir0 description0
        = (set_files self (files self ++ [file])%list, Ok tt)).
Proof.
  intros self lp dd ds file. unfold add_file.
  change {| filename := OsPath.basename lp; dv_dir := dd; local_path := lp;
            description := ds; file_pid := None |} with file.
  destruct (file_in file (files self)) eqn:E; cbn [negb]; split; intros H.
  - reflexivity.
  - apply file_in_spec in E. contradiction.
  - apply file_in_spec in H. congruence.
  - reflexivity.
Qed.

Lemma add_file_appends_or_raises_witness :
  ~ In (new_file "data/x.csv" "raw" "") (files empty_dataset)
  /\ add_file empty_dataset "data/x.csv" "raw" ""
     = (set_files empty_dataset
          (files empty_dataset ++ [new_file "data/x.csv" "raw" ""])%list,
        Ok tt).
Proof.
  assert (H : ~ In (new_file "data/x.csv" "raw" "") (files empty_dataset))
    by (intros []).
  split; [exact H|].
  exact (proj2 (add_file_appends_or_raises empty_dataset "data/x.csv" "raw" "")
           H).
Defined.

Lemma substitute_fixed_parts fname lpath fs :
  map fixed_part (snd (substitute fname lpath fs)) = map fixed_part fs.
Proof.
  induction fs as [|f r IH]; [reflexivity|]. cbn [substitute].
  destruct (String.eqb (filename f) fname); [reflexivity|].
  destruct (substitute fname lpath r) as [found r'].
  cbn [snd map] in *. rewrite IH. reflexivity.
Qed.

Lemma substitute_found fname lpath fs :
  fst (substitute fname lpath fs)
  = existsb (fun f => String.eqb (filename f) fname) fs.
Proof.
  induction fs as [|f r IH]; [reflexivity|]. cbn [substitute existsb].
  destruct (String.eqb (filename f) fname); [reflexivity|].
  destruct (substitute fname lpath r) as [found r']. exact IH.
Qed.

Lemma substitute_single fname lpath fs :
  List.length (filter (fun f => String.eqb (filename f) fname) fs) = 1 ->
  snd (substitute fname lpath fs)
  = map (fun f => if String.eqb (filename f) fname
                  then with_local_path lpath f else f) fs.
Proof.
  induction fs as [|f r IH]; [discriminate|]. cbn [filter substitute map].
  destruct (String.eqb (filename f) fname) eqn:E.
  - cbn [List.length snd]. intros H. f_equal.
    assert (Hr : filter (fun f => String.eqb (filename f) fname) r = [])
      by (destruct (filter _ r); [reflexivity|discriminate H]).
    clear -Hr. induction r as [|g r IH]; [reflexivity|].
    cbn [filter map] in *.
    destruct (String.eqb (filename g) fname); [discriminate Hr|].
    rewrite <- IH by assumption. reflexivity.
  - intros H. destruct (substitute fname lpath r) as [found r'].
    cbn [snd] in *. rewrite (IH H). reflexivity.
Qed.

(** X13.  [replace_file] succeeds exactly when one entry has the given
    filename; then that entry gets the new local path and nothing else
    changes.  In every case the filenames, remote directories,
    descriptions and remote identifiers of the entries are kept in place,
    and when it raises ([ValueError], for no entry or for several) the
    dataset is left as it is. *)
Theorem replace_file_repoints_single_entry :
  forall self filename0 local_path0,
    let after := fst (replace_file self filename0 local_path0) in
    let hits :=
      filter (fun f => String.eqb (filename f) filename0) (files self) in
    map fixed_part (files after) = map fixed_part (files self)
    /\ metadatablocks after = metadatablocks self
    /\ p_id after = p_id self
    /\ (snd (replace_file self filename0 local_path0) = Ok tt
        <-> List.length hits = 1)
    /\ (List.length hits = 1 ->
        files after
        = map (fun f => if String.eqb (filename f) filename0
                        then with_local_path local_path0 f else f)
              (files self))
    /\ (List.length hits <> 1 ->
        after = self
        /\ exists msg,
             snd (replace_file self filename0 local_path0)
             = Raise (ValueError msg)).
Proof.
  intros self fname lp after hits. subst after. unfold replace_file.
  fold hits.
  pose proof (substitute_single fname lp (files self)) as Hsingle.
  fold hits in Hsingle.
  destruct hits as [|h [|h' hs]]; cbn [fst snd List.length files
                                         metadatablocks p_id set_files].
  - split; [reflexivity|]. split; [reflexivity|]. split; [reflexivity|].
    split; [split; discriminate|]. split; [discriminate|].
    intros _. split; [reflexivity|]. eexists; reflexivity.
  - rewrite substitute_fixed_parts.
    split; [reflexivity|]. split; [reflexivity|]. split; [reflexivity|].
    split; [split; reflexivity|]. split; [exact Hsingle|].
    intros H. congruence.
  - split; [reflexivity|]. split; [reflexivity|]. split; [reflexivity|].
    split; [split; discriminate|]. split; [discriminate|].
    intros _. split; [reflexivity|]. eexists; reflexivity.
Qed.

Lemma replace_file_repoints_single_entry_witness :
  List.length
    (filter (fun f => String.eqb (filename f) "x.csv")
            (files (fst (add_file empty_dataset "data/x.csv" "raw" "")))) = 1
  /\ files (fst (replace_file
                   (fst (add_file empty_dataset "data/x.csv" "raw" ""))
                   "x.csv" "new/x.csv"))
     = map (fun f => if String.eqb (filename f) "x.csv"
                     then with_local_path "new/x.csv" f else f)
           (files (fst (add_file empty_dataset "data/x.csv" "raw" ""))).
Proof.
  split; [reflexivity|].
  exact (proj1 (proj2 (proj2 (proj2 (proj2
           (replace_file_repoints_single_entry
              (fst (add_file empty_dataset "data/x.csv" "raw" ""))
              "x.csv" "new/x.csv"))))) eq_refl).
Defined.

(** X14.  Two files with the same base name can both be added (from
    different local paths); once both calls have succeeded,
    [replace_file] for that name raises the [ValueError] of the
    "more than one file" case and changes nothing. *)
Theorem same_name_twice_blocks_replace_file :
  forall self path1 path2 dir1 dir2 descr1 descr2 local_path0,
    OsPath.basename path1 = OsPath.basename path2 ->
    snd (add_file self path1 dir1 descr1) = Ok tt ->
    let once := fst (add_file self path1 dir1 descr1) in
    snd (add_file once path2 dir2 descr2) = Ok tt ->
    let twice := fst (add_file once path2 dir2 descr2) in
    replace_file twice (OsPath.basename path1) local_path0
    = (twice,
       Raise (ValueError
         "More than one file found under filename '{filename}'. This is actually impossible, but better to have an exception for the exception :-)")).
Proof.
  intros self p1 p2 d1 d2 s1 s2 lp Hbase Hok1 once Hok2 twice.
  assert (Hfiles : files twice
                   = ((files self ++ [new_file p1 d1 s1])
                        ++ [new_file p2 d2 s2])%list).
  { subst twice once. unfold add_file in *. fold (new_file p1 d1 s1) in *.
    destruct (file_in (new_file p1 d1 s1) (files self));
      cbn [negb fst snd] in *; [discriminate Hok1|].
    fold (new_file p2 d2 s2) in *. cbn [files set_files] in *.
    destruct (file_in (new_file p2 d2 s2) _);
      cbn [negb fst snd] in *; [discriminate Hok2|]. reflexivity. }
  unfold replace_file. rewrite Hfiles, !filter_app. cbn [filter].
  cbn [new_file filename]. rewrite <- Hbase, String.eqb_refl.
  destruct (filter _ (files self)) as [|a [|b r]]; reflexivity.
Qed.

Lemma same_name_twice_blocks_replace_file_witness :
  OsPath.basename "a/x.csv" = OsPath.basename "b/x.csv"
  /\ snd (add_file empty_dataset "a/x.csv" "" "") = Ok tt
  /\ snd (add_file (fst (add_file empty_dataset "a/x.csv" "" ""))
                   "b/x.csv" "" "") = Ok tt
  /\ exists msg,
       snd (replace_file
              (fst (add_file (fst (add_file empty_dataset "a/x.csv" "" ""))
                             "b/x.csv" "" ""))
              (OsPath.basename "a/x.csv") "c/x.csv")
       = Raise (ValueError msg).
Proof.
  split; [reflexivity|]. split; [reflexivity|]. split; [reflexivity|].
  eexists.
  rewrite (same_name_twice_blocks_replace_file empty_dataset
             "a/x.csv" "b/x.csv" "" "" "" "" "c/x.csv"
             eq_refl eq_refl eq_refl).
  reflexivity.
Defined.

(** ** Directory ingestion: what it does to the file list *)

Lemma set_files_same self : set_files self (files self) = self.
Proof. destruct self. reflexivity. Qed.

Lemma ingest_file_plan dirpath dv path file self :
  ingest_file dirpath dv path file self
  = match planned_file dirpath dv path file with
    | Ok d => (set_files self (upsert d (files self)), Ok tt)
    | Raise e => (self, Raise e)
    end.
Proof.
  unfold ingest_file, planned_file.
  destruct (filter _ (PyStr.split "/" (OsPath.join path [file])))
    as [|a rest]; [reflexivity|].
  destruct (String.eqb dirpath ""); [reflexivity|].
  unfold upsert. cbn [filename local_path].
  destruct (substitute _ _ (files self)) as [[|] fs']; reflexivity.
Qed.

Lemma ingest_files_plan dirpath dv path fnames self :
  ingest_files dirpath dv path fnames self
  = (set_files self
       (fst (run_plan (plan_files dirpath dv path fnames) (files self))),
     snd (run_plan (plan_files dirpath dv path fnames) (files self))).
Proof.
  revert self. unfold plan_files.
  induction fnames as [|file r IH]; intros self.
  - cbn. rewrite set_files_same. reflexivity.
  - cbn [ingest_files filter].
    destruct (PyStr.startswith file "."); cbn [negb]; [apply IH|].
    cbn [map run_plan]. rewrite ingest_file_plan.
    destruct (planned_file dirpath dv path file) as [d|e].
    + rewrite IH. destruct self; reflexivity.
    + cbn. rewrite set_files_same. reflexivity.
Qed.

Lemma run_plan_app ops1 ops2 fs :
  run_plan (ops1 ++ ops2)%list fs
  = match run_plan ops1 fs with
    | (fs', Ok _) => run_plan ops2 fs'
    | (fs', Raise e) => (fs', Raise e)
    end.
Proof.
  revert fs. induction ops1 as [|[d|e] r IH]; intros fs; cbn;
    [reflexivity|apply IH|reflexivity].
Qed.

Lemma ingest_walk_plan dirpath dv include_hidden ignores walked self :
  ingest_walk dirpath dv include_hidden ignores walked self
  = (set_files self
       (fst (run_plan (plan_walk dirpath dv include_hidden ignores walked)
                      (files self))),
     snd (run_plan (plan_walk dirpath dv include_hidden ignores walked)
                   (files self))).
Proof.
  revert self. unfold plan_walk.
  induction walked as [|[path fnames] r IH]; intros self.
  - cbn. rewrite set_files_same. reflexivity.
  - cbn [ingest_walk flat_map fst snd].
    destruct (_has_hidden_dir path dirpath && negb include_hidden);
      [apply IH|].
    destruct (_has_ignore_dirs path dirpath ignores); [apply IH|].
    rewrite run_plan_app, ingest_files_plan.
    destruct (run_plan (plan_files dirpath dv path fnames) (files self))
      as [fs' [u|e]]; cbn [fst snd].
    + rewrite IH. destruct self; reflexivity.
    + reflexivity.
Qed.

Lemma in_names_existsb fname fs :
  existsb (fun f => String.eqb (filename f) fname) fs = true
  <-> In fname (map filename fs).
Proof.
  rewrite existsb_exists, in_map_iff. split.
  - intros (f & Hin & He). apply String.eqb_eq in He. exists f. auto.
  - intros (f & He & Hin). exists f. split; [exact Hin|].
    apply String.eqb_eq. exact He.
Qed.

Lemma upsert_cases d fs :
  (In (filename d) (map filename fs)
   /\ upsert d fs = snd (substitute (filename d) (local_path d) fs))
  \/ (~ In (filename d) (map filename fs) /\ upsert d fs = (fs ++ [d])%list).
Proof.
  unfold upsert.
  pose proof (substitute_found (filename d) (local_path d) fs) as Hf.
  destruct (substitute (filename d) (local_path d) fs) as [found fs'].
  cbn [fst snd] in *. subst found.
  destruct (existsb _ fs) eqn:E.
  - left. split; [apply in_names_existsb; exact E|reflexivity].
  - right. split; [|reflexivity]. intros Hin.
    apply in_names_existsb in Hin. congruence.
Qed.

Lemma names_of_fixed_parts fs :
  map filename fs = map (fun x => fst (fst (fst x))) (map fixed_part fs).
Proof. rewrite map_map. reflexivity. Qed.

Lemma upsert_extends d fs :
  (exists added,
      map fixed_part (upsert d fs) = (map fixed_part fs ++ added)%list)
  /\ (NoDup (map filename fs) -> NoDup (map filename (upsert d fs))).
Proof.
  destruct (upsert_cases d fs) as [[Hin ->]|[Hnot ->]].
  - split.
    + exists []. rewrite substitute_fixed_parts, app_nil_r. reflexivity.
    + rewrite (names_of_fixed_parts (snd _)), substitute_fixed_parts,
        <- names_of_fixed_parts. auto.
  - split.
    + exists [fixed_part d]. rewrite map_app. reflexivity.
    + intros Hnd. rewrite map_app. cbn [map].
      apply NoDup_app; [exact Hnd|repeat constructor; intros []|].
      intros x Hx [Hd|[]]. subst x. exact (Hnot Hx).
Qed.

Lemma run_plan_extends ops fs :
  (exists added,
      map fixed_part (fst (run_plan ops fs))
      = (map fixed_part fs ++ added)%list)
  /\ (NoDup (map filename fs) ->
      NoDup (map filename (fst (run_plan ops fs)))).
Proof.
  revert fs. induction ops as [|[d|e] r IH]; intros fs; cbn [run_plan fst].
  - split; [exists []; rewrite app_nil_r; reflexivity|auto].
  - destruct (IH (upsert d fs)) as [[added2 H2] Hnd2].
    destruct (upsert_extends d fs) as [[added1 H1] Hnd1].
    split; [|auto].
    exists (added1 ++ added2)%list. rewrite H2, H1, app_assoc. reflexivity.
  - split; [exists []; rewrite app_nil_r; reflexivity|auto].
Qed.

Lemma add_directory_plan fs self dirpath dv include_hidden ignores :
  isdir fs dirpath = true ->
  add_directory fs self dirpath dv include_hidden ignores
  = (set_files self
       (fst (run_plan (plan_walk dirpath dv include_hidden ignores
                                 (os_walk fs dirpath)) (files self))),
     snd (run_plan (plan_walk dirpath dv include_hidden ignores
                              (os_walk fs dirpath)) (files self))).
Proof.
  intros H. unfold add_directory. rewrite H. cbn [negb].
  apply ingest_walk_plan.
Qed.

Lemma add_directory_files fs self dirpath dv include_hidden ignores :
  exists ops,
    files (fst (add_directory fs self dirpath dv include_hidden ignores))
    = fst (run_plan ops (files self))
    /\ metadatablocks
         (fst (add_directory fs self dirpath dv include_hidden ignores))
       = metadatablocks self
    /\ p_id (fst (add_directory fs self dirpath dv include_hidden ignores))
       = p_id self.
Proof.
  destruct (isdir fs dirpath) eqn:E.
  - rewrite (add_directory_plan _ _ _ _ _ _ E). eexists.
    cbn [fst]. destruct self; cbn. repeat split.
  - unfold add_directory. rewrite E. exists []. cbn. repeat split.
Qed.

(** X15.  Whatever the file system shows and whether or not it raises,
    [add_directory] only appends entries or re-points local paths: the
    filenames, remote directories, descriptions and remote identifiers of
    the entries present before are kept in place at the head of the list,
    and blocks and identifier of the dataset are untouched. *)
Theorem add_directory_keeps_existing_entries :
  forall fs self dirpath dv include_hidden ignores,
    let after :=
      fst (add_directory fs self dirpath dv include_hidden ignores) in
    (exists added,
        map fixed_part (files after)
        = (map fixed_part (files self) ++ added)%list)
    /\ metadatablocks after = metadatablocks self
    /\ p_id after = p_id self.
Proof.
  intros fs self dirpath dv include_hidden ignores after. subst after.
  destruct (add_directory_files fs self dirpath dv include_hidden ignores)
    as (ops & Hfiles & Hblocks & Hid).
  rewrite Hfiles. split; [|auto].
  apply run_plan_extends.
Qed.

(** X16.  [add_directory] never creates a second entry for a filename:
    when the filenames of the entries are pairwise distinct before, they
    are pairwise distinct after. *)
Theorem add_directory_keeps_filenames_distinct :
  forall fs self dirpath dv include_hidden ignores,
    NoDup (map filename (files self)) ->
    NoDup (map filename
               (files (fst (add_directory fs self dirpath dv include_hidden
                                          ignores)))).
Proof.
  intros fs self dirpath dv include_hidden ignores Hnd.
  destruct (add_directory_files fs self dirpath dv include_hidden ignores)
    as (ops & Hfiles & _). rewrite Hfiles.
  apply run_plan_extends. exact Hnd.
Qed.

Lemma add_directory_keeps_filenames_distinct_witness :
  NoDup (map filename (files empty_dataset))
  /\ NoDup (map filename
                (files (fst (add_directory sample_fs empty_dataset "root" ""
                                           true [])))).
Proof.
  assert (H : NoDup (map filename (files empty_dataset))) by constructor.
  split; [exact H|].
  exact (add_directory_keeps_filenames_distinct sample_fs empty_dataset
           "root" "" true [] H).
Defined.

(** *** Ingesting the same directory again *)

Lemma substitute_unique fname lpath fs :
  NoDup (map filename fs) ->
  snd (substitute fname lpath fs)
  = map (fun f => if String.eqb (filename f) fname
                  then with_local_path lpath f else f) fs.
Proof.
  induction fs as [|f r IH]; [reflexivity|]. cbn [map substitute].
  intros Hnd. inversion Hnd as [|? ? Hf Hr]; subst.
  destruct (String.eqb (filename f) fname) eqn:E.
  - cbn [snd]. f_equal. apply String.eqb_eq in E. subst fname.
    clear -Hf. induction r as [|g r IH]; [reflexivity|].
    cbn [map] in *.
    destruct (String.eqb (filename g) (filename f)) eqn:Eg.
    + apply String.eqb_eq in Eg. elim Hf. left. exact Eg.
    + rewrite <- IH; [reflexivity|]. intros H. apply Hf. right. exact H.
  - destruct (substitute fname lpath r) as [found r'].
    cbn [snd] in *. rewrite (IH Hr). reflexivity.
Qed.

Lemma substitute_other fname lpath fs f :
  In f (snd (substitute fname lpath fs)) ->
  filename f <> fname -> In f fs.
Proof.
  induction fs as [|g r IH]; [intros []|]. cbn [substitute].
  destruct (String.eqb (filename g) fname) eqn:E.
  - cbn [snd]. intros [H|H] Hne; [|right; exact H].
    subst f. cbn in Hne. apply String.eqb_eq in E. congruence.
  - destruct (substitute fname lpath r) as [found r'].
    cbn [snd] in *. intros [H|H] Hne; [left; exact H|right; auto].
Qed.

Lemma last_local_path_none ds fname :
  last_local_path ds fname = None <-> ~ In fname (map filename ds).
Proof.
  induction ds as [|d r IH]; cbn [last_local_path map].
  - split; [intros _ []|reflexivity].
  - destruct (last_local_path r fname) as [lp|].
    + split; [discriminate|]. intros H. exfalso.
      assert (Hr : ~ In fname (map filename r))
        by (intros Hin; apply H; right; exact Hin).
      apply IH in Hr. discriminate Hr.
    + destruct (String.eqb (filename d) fname) eqn:E.
      * split; [discriminate|]. intros H. elim H. left.
        apply String.eqb_eq. exact E.
      * split; [|reflexivity]. intros _ [H|H].
        -- apply String.eqb_neq in E. contradiction.
        -- apply (proj1 IH eq_refl H).
Qed.

Definition merge_all (ds : list File) (fs : list File) : list File :=
  fold_left (fun fs d => upsert d fs) ds fs.

Lemma merge_all_distinct ds fs :
  NoDup (map filename fs) -> NoDup (map filename (merge_all ds fs)).
Proof.
  revert fs. induction ds as [|d r IH]; intros fs H; [exact H|].
  cbn. apply IH. apply upsert_extends. exact H.
Qed.

Lemma upsert_names d fs :
  incl (filename d :: map filename fs) (map filename (upsert d fs)).
Proof.
  destruct (upsert_cases d fs) as [[Hin ->]|[Hnot ->]].
  - rewrite (names_of_fixed_parts (snd _)), substitute_fixed_parts,
      <- names_of_fixed_parts.
    intros x [Hx|Hx]; [subst x|]; assumption.
  - rewrite map_app. cbn [map].
    intros x [Hx|Hx]; apply in_or_app; [right; left|left]; assumption.
Qed.

Lemma merge_all_names ds fs :
  incl (map filename ds ++ map filename fs)%list
       (map filename (merge_all ds fs)).
Proof.
  revert fs. induction ds as [|d r IH]; intros fs; [cbn; apply incl_refl|].
  cbn [merge_all fold_left map app]. intros x Hx.
  apply (IH (upsert d fs)). apply in_or_app.
  destruct Hx as [Hx|Hx].
  - right. apply upsert_names. left. exact Hx.
  - apply in_app_or in Hx as [Hx|Hx]; [left; exact Hx|right].
    apply upsert_names. right. exact Hx.
Qed.

Lemma merge_all_untouched ds fs f :
  In f (merge_all ds fs) ->
  last_local_path ds (filename f) = None -> In f fs.
Proof.
  revert fs. induction ds as [|d r IH]; intros fs Hin Hnone; [exact Hin|].
  cbn [last_local_path] in Hnone.
  destruct (last_local_path r (filename f)) eqn:Hr; [discriminate|].
  destruct (String.eqb (filename d) (filename f)) eqn:E; [discriminate|].
  apply String.eqb_neq in E.
  specialize (IH (upsert d fs) Hin eq_refl).
  destruct (upsert_cases d fs) as [[_ Hu]|[_ Hu]]; rewrite Hu in IH.
  - apply (substitute_other _ _ _ _ IH). congruence.
  - apply in_app_or in IH as [H|[H|[]]]; [exact H|]. subst f. congruence.
Qed.

Lemma upsert_sets_local_path d fs f :
  NoDup (map filename fs) ->
  In f (upsert d fs) -> filename f = filename d ->
  local_path f = local_path d.
Proof.
  intros Hnd Hin Hname.
  destruct (upsert_cases d fs) as [[_ Hu]|[Hnot Hu]]; rewrite Hu in Hin.
  - rewrite (substitute_unique _ _ _ Hnd) in Hin.
    apply in_map_iff in Hin as (g & Hg & _).
    destruct (String.eqb (filename g) (filename d)) eqn:E.
    + subst f. reflexivity.
    + subst f. apply String.eqb_neq in E. contradiction.
  - apply in_app_or in Hin as [H|[H|[]]]; [|subst f; reflexivity].
    elim Hnot. rewrite <- Hname. apply in_map. exact H.
Qed.

Lemma merge_all_local_paths ds fs f lpath :
  NoDup (map filename fs) ->
  In f (merge_all ds fs) ->
  last_local_path ds (filename f) = Some lpath ->
  local_path f = lpath.
Proof.
  revert fs. induction ds as [|d r IH]; intros fs Hnd Hin Hlast;
    [discriminate Hlast|].
  cbn [last_local_path] in Hlast. cbn [merge_all fold_left] in Hin.
  assert (Hnd' : NoDup (map filename (upsert d fs)))
    by (apply upsert_extends; exact Hnd).
  destruct (last_local_path r (filename f)) as [lp|] eqn:Hr.
  - inversion Hlast; subst lp. exact (IH _ Hnd' Hin eq_refl).
  - destruct (String.eqb (filename d) (filename f)) eqn:E; [|discriminate].
    inversion Hlast; subst lpath. apply String.eqb_eq in E.
    apply (upsert_sets_local_path d fs f Hnd); [|congruence].
    exact (merge_all_untouched r _ f Hin Hr).
Qed.

Lemma with_local_path_twice a b f :
  with_local_path a (with_local_path b f) = with_local_path a f.
Proof. reflexivity. Qed.

Lemma merge_all_present ds fs :
  NoDup (map filename fs) ->
  incl (map filename ds) (map filename fs) ->
  merge_all ds fs = map (repoint ds) fs.
Proof.
  revert fs. induction ds as [|d r IH]; intros fs Hnd Hincl.
  - cbn. unfold repoint. cbn. rewrite map_id. reflexivity.
  - cbn [merge_all fold_left].
    destruct (upsert_cases d fs) as [[_ Hu]|[Hnot _]];
      [|elim Hnot; apply Hincl; left; reflexivity].
    rewrite Hu, (substitute_unique _ _ _ Hnd).
    fold (merge_all r (map (fun f => if String.eqb (filename f) (filename d)
                                     then with_local_path (local_path d) f
                                     else f) fs)).
    assert (Hnames : map filename
                       (map (fun f => if String.eqb (filename f) (filename d)
                                      then with_local_path (local_path d) f
                                      else f) fs)
                     = map filename fs).
    { rewrite map_map. apply map_ext. intros f.
      destruct (String.eqb (filename f) (filename d)); reflexivity. }
    rewrite IH.
    + rewrite map_map. apply map_ext. intros f. unfold repoint.
      cbn [last_local_path].
      destruct (String.eqb (filename f) (filename d)) eqn:E.
      * cbn [with_local_path filename].
        apply String.eqb_eq in E.
        rewrite E, String.eqb_refl.
        destruct (last_local_path r (filename d)); reflexivity.
      * rewrite String.eqb_sym in E. rewrite E.
        destruct (last_local_path r (filename f)); reflexivity.
    + rewrite Hnames. exact Hnd.
    + rewrite Hnames. intros x Hx. apply Hincl. right. exact Hx.
Qed.

Lemma merge_all_idempotent ds fs :
  NoDup (map filename fs) ->
  merge_all ds (merge_all ds fs) = merge_all ds fs.
Proof.
  intros Hnd.
  rewrite (merge_all_present ds (merge_all ds fs)).
  - rewrite <- (map_id (merge_all ds fs)) at 2.
    apply map_ext_in. intros f Hin. unfold repoint.
    destruct (last_local_path ds (filename f)) as [lp|] eqn:Hl;
      [|reflexivity].
    rewrite <- (merge_all_local_paths ds fs f lp Hnd Hin Hl).
    destruct f; reflexivity.
  - apply merge_all_distinct. exact Hnd.
  - intros x Hx. apply merge_all_names. apply in_or_app. left. exact Hx.
Qed.

Lemma run_plan_ok ops fs fs' :
  run_plan ops fs = (fs', Ok tt) ->
  exists ds, ops = map Ok ds /\ fs' = merge_all ds fs.
Proof.
  revert fs. induction ops as [|[d|e] r IH]; intros fs H; cbn in H.
  - inversion H. exists []. auto.
  - destruct (IH _ H) as (ds & Hops & Hfs). exists (d :: ds).
    split; [cbn; rewrite Hops; reflexivity|exact Hfs].
  - discriminate H.
Qed.

Lemma run_plan_all_ok ds fs :
  run_plan (map Ok ds) fs = (merge_all ds fs, Ok tt).
Proof.
  revert fs. induction ds as [|d r IH]; intros fs; [reflexivity|].
  cbn. apply IH.
Qed.

(** X17.  Ingesting the same directory a second time, the file system
    being the same, changes nothing: when the filenames of the dataset
    are pairwise distinct and [add_directory] has returned normally,
    calling it again with the same arguments returns normally with the
    same dataset, so the file list does not grow. *)
Theorem add_directory_twice_is_once :
  forall fs self dirpath dv include_hidden ignores once,
    NoDup (map filename (files self)) ->
    add_directory fs self dirpath dv include_hidden ignores = (once, Ok tt) ->
    add_directory fs once dirpath dv include_hidden ignores = (once, Ok tt).
Proof.
  intros fs self dirpath dv include_hidden ignores once Hnd Hrun.
  destruct (isdir fs dirpath) eqn:Hdir;
    [|unfold add_directory in Hrun; rewrite Hdir in Hrun; discriminate Hrun].
  rewrite (add_directory_plan fs self _ _ _ _ Hdir) in Hrun.
  rewrite (add_directory_plan fs once _ _ _ _ Hdir).
  set (ops := plan_walk dirpath dv include_hidden ignores (os_walk fs dirpath))
    in *.
  destruct (run_plan ops (files self)) as [fs1 r1] eqn:Hplan.
  cbn [fst snd] in Hrun. injection Hrun as Honce Hr1. subst once r1.
  destruct (run_plan_ok _ _ _ Hplan) as (ds & Hops & Hfs1).
  cbn [files set_files]. rewrite Hops, run_plan_all_ok. cbn [fst snd].
  rewrite Hfs1, (merge_all_idempotent ds _ Hnd). reflexivity.
Qed.

Lemma add_directory_twice_is_once_witness :
  NoDup (map filename (files empty_dataset))
  /\ exists once,
       add_directory sample_fs empty_dataset "root" "up" false ["tmp"]
       = (once, Ok tt)
       /\ add_directory sample_fs once "root" "up" false ["tmp"]
          = (once, Ok tt).
Proof.
  assert (H : NoDup (map filename (files empty_dataset))) by constructor.
  split; [exact H|].
  eexists. split; [vm_compute; reflexivity|].
  exact (add_directory_twice_is_once sample_fs empty_dataset "root" "up"
           false ["tmp"] _ H eq_refl).
Defined.

(** *** Hidden directories *)

Lemma append_longer a b : String.eqb (a ++ String "/" b) a = false.
Proof.
  apply String.eqb_neq. intros H.
  assert (Hlen : String.length (a ++ String "/" b) = String.length a)
    by (rewrite H; reflexivity).
  clear H. induction a as [|c r IH]; cbn in Hlen; [discriminate|].
  apply IH. congruence.
Qed.

Lemma has_hidden_dir_below_root dirpath comps comp :
  comps <> [] ->
  forallb plain_component comps = true ->
  PyStr.contains (dirpath ++ "/") (PyStr.join "/" comps) = false ->
  In comp comps ->
  PyStr.startswith comp "." = true ->
  _has_hidden_dir (dirpath ++ "/" ++ PyStr.join "/" comps) dirpath = true.
Proof.
  intros Hne Hplain Habsent Hin Hdot. unfold _has_hidden_dir.
  change (dirpath ++ "/" ++ PyStr.join "/" comps)
    with (dirpath ++ String "/" (PyStr.join "/" comps)) at 1.
  rewrite append_longer.
  change (PyStr.split "/"
            (OsPath.normpath
               (PyStr.replace (dirpath ++ OsPath.sep) ""
                              (dirpath ++ "/" ++ PyStr.join "/" comps))))
    with (ignore_dirs (dirpath ++ "/" ++ PyStr.join "/" comps) dirpath).
  rewrite (ignore_dirs_below_root dirpath comps Hne Hplain Habsent).
  apply existsb_exists. exists comp. auto.
Qed.

(** X18.  With [include_hidden] false, a walked directory below the root
    (given by its plain components after the root, the root prefix not
    occurring again) that has a component starting with a dot is skipped
    with all its files, whatever the ignore list is; the root itself is
    never taken as hidden. *)
Theorem hidden_directories_skipped :
  forall dirpath dv ignores comps comp pre fnames post self,
    comps <> [] ->
    forallb plain_component comps = true ->
    PyStr.contains (dirpath ++ "/") (PyStr.join "/" comps) = false ->
    In comp comps ->
    PyStr.startswith comp "." = true ->
    ingest_walk dirpath dv false ignores
      (pre ++ ((dirpath ++ "/" ++ PyStr.join "/" comps)%string, fnames)
           :: post)%list self
    = ingest_walk dirpath dv false ignores (pre ++ post)%list self
    /\ _has_hidden_dir dirpath dirpath = false.
Proof.
  intros dirpath dv ignores comps comp pre fnames post self
         Hne Hplain Habsent Hin Hdot.
  split.
  - rewrite !ingest_walk_app.
    destruct (ingest_walk dirpath dv false ignores pre self)
      as [self' [u|e]]; [|reflexivity].
    cbn [ingest_walk].
    rewrite (has_hidden_dir_below_root dirpath comps comp
               Hne Hplain Habsent Hin Hdot).
    reflexivity.
  - unfold _has_hidden_dir. rewrite String.eqb_refl. reflexivity.
Qed.

Lemma hidden_directories_skipped_witness :
  [".git"; "hooks"] <> []
  /\ forallb plain_component [".git"; "hooks"] = true
  /\ PyStr.contains ("root" ++ "/") (PyStr.join "/" [".git"; "hooks"]) = false
  /\ In ".git" [".git"; "hooks"]
  /\ PyStr.startswith ".git" "." = true
  /\ ingest_walk "root" "" false []
       ([("root", ["a.txt"])]
          ++ (("root" ++ "/" ++ PyStr.join "/" [".git"; "hooks"])%string,
              ["pre-commit"]) :: [])%list empty_dataset
     = ingest_walk "root" "" false [] ([("root", ["a.txt"])] ++ [])%list
                   empty_dataset.
Proof.
  assert (H1 : [".git"; "hooks"] <> []) by discriminate.
  assert (H2 : In ".git" [".git"; "hooks"]) by (left; reflexivity).
  split; [exact H1|]. split; [reflexivity|]. split; [reflexivity|].
  split; [exact H2|]. split; [reflexivity|].
  exact (proj1 (hidden_directories_skipped "root" "" [] [".git"; "hooks"]
                  ".git" [("root", ["a.txt"])] ["pre-commit"] []
                  empty_dataset H1 eq_refl eq_refl H2 eq_refl)).
Defined.

(** ** Index segments in the validator *)

Lemma split_leading_sep s :
  PyStr.split "/" ("/" ++ s) = "" :: PyStr.split "/" s.
Proof. reflexivity. Qed.

Lemma join_cons_cons sep x y r :
  PyStr.join sep (x :: y :: r) = x ++ sep ++ PyStr.join sep (y :: r).
Proof. reflexivity. Qed.

Lemma filter_keeps_no_sep (l : list string) f :
  Forall (fun s => PyStr.has_char "/" s = false) l ->
  Forall (fun s => PyStr.has_char "/" s = false) (filter f l).
Proof.
  induction 1 as [|x r Hx Hr IH]; cbn; [constructor|].
  destruct (f x); [constructor|]; assumption.
Qed.

(** X19.  Index segments are stripped before comparing: for a path of
    separator-free segments of which at least one is not a number, the
    normalised form is the path of its non-numeric segments, so that
    [author/0/name] and [author/1/name] both become [/author/name]. *)
Theorem meta_path_strips_indices :
  forall dspath,
    Forall (fun s => PyStr.has_char "/" s = false) dspath ->
    filter (fun part => negb (PyStr.isdigit part)) dspath <> [] ->
    meta_path dspath
    = nob_path_str (filter (fun part => negb (PyStr.isdigit part)) dspath).
Proof.
  intros dspath Hsep Hne. unfold meta_path, nob_path_str.
  assert (Hds : dspath <> []) by (intros ->; apply Hne; reflexivity).
  rewrite split_leading_sep, (split_join "/" dspath Hds Hsep).
  cbn [filter PyStr.isdigit negb].
  destruct (filter _ dspath) as [|x r]; [congruence|].
  rewrite join_cons_cons. reflexivity.
Qed.

Lemma meta_path_strips_indices_witness :
  Forall (fun s => PyStr.has_char "/" s = false) ["author"; "1"; "name"]
  /\ filter (fun part => negb (PyStr.isdigit part)) ["author"; "1"; "name"]
     <> []
  /\ meta_path ["author"; "1"; "name"] = nob_path_str ["author"; "name"].
Proof.
  assert (H1 : Forall (fun s => PyStr.has_char "/" s = false)
                 ["author"; "1"; "name"]) by (repeat constructor).
  assert (H2 : filter (fun part => negb (PyStr.isdigit part))
                 ["author"; "1"; "name"] <> []) by discriminate.
  split; [exact H1|]. split; [exact H2|].
  exact (meta_path_strips_indices ["author"; "1"; "name"] H1 H2).
Defined.

Lemma meta_path_parts dspath :
  exists parts,
    meta_path dspath = PyStr.join "/" parts
    /\ Forall (fun s => PyStr.has_char "/" s = false) parts
    /\ Forall (fun s => PyStr.isdigit s = false) parts.
Proof.
  unfold meta_path. eexists. split; [reflexivity|]. split.
  - apply filter_keeps_no_sep, split_segments_without_sep.
  - apply Forall_forall. intros x Hx. apply filter_In in Hx as [_ Hx].
    apply negb_true_iff. exact Hx.
Qed.

(** X20.  A required path with a numeric segment after the block name
    never passes: no path of the block's dict form normalises to it, so
    for a registered block the validator reports the field as absent and
    returns [False]. *)
Theorem numeric_segment_never_passes :
  forall self path name field block segment,
    PyStr.split "/" path = name :: field ->
    dict_get name (metadatablocks self) = Some (VModel block) ->
    In segment field ->
    PyStr.isdigit segment = true ->
    _validate_required_field self path = ([msg_field_absent path], Ok false).
Proof.
  intros self path name field block segment Hsplit Hget Hin Hdigit.
  rewrite (validate_required_field_registered self path name field block
             Hsplit Hget).
  assert (Hnone : concretizations block ("/" ++ PyStr.join "/" field) = []).
  { unfold concretizations.
    induction (nob_paths (VDict (dict_ false block))) as [|[p v] r IH];
      [reflexivity|].
    cbn [filter fst]. rewrite IH.
    destruct (String.eqb (meta_path p) ("/" ++ PyStr.join "/" field)) eqn:E;
      [|reflexivity].
    exfalso. apply String.eqb_eq in E.
    destruct (meta_path_parts p) as (parts & Hparts & Hsep & Hnodigit).
    rewrite Hparts in E.
    assert (Hfield : Forall (fun s => PyStr.has_char "/" s = false) field).
    { pose proof (split_segments_without_sep "/" path) as H.
      rewrite Hsplit in H. inversion H; assumption. }
    assert (Hjoin : "/" ++ PyStr.join "/" field
                    = PyStr.join "/" ("" :: field)).
    { destruct field as [|x r']; [destruct Hin|reflexivity]. }
    rewrite Hjoin in E.
    assert (Hpne : parts <> []).
    { intros ->. destruct field as [|x r']; [destruct Hin|].
      cbn in E. discriminate E. }
    assert (Heq : parts = "" :: field).
    { rewrite <- (split_join "/" parts Hpne Hsep).
      rewrite <- (split_join "/" ("" :: field));
        [rewrite E; reflexivity|discriminate|].
      constructor; [reflexivity|exact Hfield]. }
    subst parts. inversion Hnodigit as [|? ? _ Hrest]; subst.
    rewrite Forall_forall in Hrest. rewrite (Hrest segment Hin) in Hdigit.
    discriminate Hdigit. }
  rewrite Hnone. reflexivity.
Qed.

Lemma numeric_segment_never_passes_witness :
  PyStr.split "/" "citation/author/0/name" = ["citation"; "author"; "0"; "name"]
  /\ dict_get "citation" (metadatablocks two_authors)
     = Some (VModel (citation (VStr "Title")
                       [author (VStr "Jane") VNone; author VNone (VStr "Uni")]
                       [VStr "Chemistry"]))
  /\ In "0" ["author"; "0"; "name"]
  /\ PyStr.isdigit "0" = true
  /\ _validate_required_field two_authors "citation/author/0/name"
     = ([msg_field_absent "citation/author/0/name"], Ok false).
Proof.
  assert (H : In "0" ["author"; "0"; "name"]) by (right; left; reflexivity).
  split; [reflexivity|]. split; [reflexivity|]. split; [exact H|].
  split; [reflexivity|].
  exact (numeric_segment_never_passes two_authors "citation/author/0/name"
           "citation" ["author"; "0"; "name"] _ "0"
           eq_refl eq_refl H eq_refl).
Defined.

(** ** Upload and update *)

Section UploadAndUpdate.
Variable model_str : DataverseBase -> string.
Variable upload_to_dataverse :
  value -> string -> list File -> option string -> result string.
Variable update_dataset : value -> option string -> list File -> result unit.

End UploadAndUpdate.


(** ** File transfer *)

Section FileTransfer.
Variable upload_datafile :
  list (string * string * string * string) ->
  string * string * string * string -> Response.

End FileTransfer.

(** The second of three files is refused: two requests are made. *)
Lemma upload_files_stops_at_refusal :
  uploadFiles refuse_second
    [new_file "a.txt" "" ""; new_file "b.txt" "" ""; new_file "c.txt" "" ""]
    "doi:1" []
  = ([("doi:1", "a.txt", "a.txt", ""); ("doi:1", "b.txt", "b.txt", "")],
     Raise (ValueError "Upload failed: 500 busy")).
Proof. reflexivity. Qed.
